(** * The update / versioning / validation pipeline of [BuchService]

    A shallow embedding of the application core of the repository
    (class [BuchService], the GraphQL resolver [updateBuch]) together with the
    parts of the JavaScript run time it relies on ([Number.parseInt],
    [Number.prototype.toString], [RegExp]) and of the document store it
    talks to ([BuchModel]).

    Conventions.
    - A JavaScript string is a [string]; every character stands for one code
      unit below 256 (not for a byte of UTF-8), with the letter case of
      these code units.
    - A JavaScript number that holds a version is an integer, modelled as
      [Z]; [NaN] is kept apart.  Integers are taken exactly; what is said
      about the value read from a token is said for digits that denote at
      most [Number.MAX_SAFE_INTEGER], where the run time does not round.
    - [undefined] and [null] are [None].
    - [async] functions are sequential state passing over the collection;
      debug logging is left out, the error log of [sendmail] is kept. *)

From Stdlib Require Import ZArith NArith Nnat List String Ascii Bool Lia QArith.
From Stdlib Require Import Sorted Permutation.
Import ListNotations.

Local Open Scope string_scope.
Local Open Scope Z_scope.

(* ================================================================= *)
(** ** The JavaScript built-ins used by the service *)

Module JS.

(** A number as the version guard sees it. *)
Inductive Number : Type :=
| NaN
| Int (z : Z).

Definition Number_isNaN (n : Number) : bool :=
  match n with NaN => true | Int _ => false end.

(** [StrWhiteSpaceChar] restricted to code units below 256:
    TAB, LF, VT, FF, CR, SP and NBSP. *)
Definition isWhiteSpace (c : ascii) : bool :=
  let n := N_of_ascii c in
  ((9 <=? n) && (n <=? 13) || (n =? 32) || (n =? 160))%N.

(** [TrimString(s, start)]. *)
Fixpoint trimStart (s : string) : string :=
  match s with
  | String c r => if isWhiteSpace c then trimStart r else s
  | EmptyString => s
  end.

Definition isDigit (c : ascii) : bool :=
  let n := N_of_ascii c in ((48 <=? n) && (n <=? 57))%N.

Definition digitValue (c : ascii) : Z := Z.of_N (N_of_ascii c) - 48.

(** The longest prefix of radix-10 digits. *)
Fixpoint digitPrefix (s : string) : list ascii :=
  match s with
  | String c r => if isDigit c then c :: digitPrefix r else []
  | EmptyString => []
  end.

(** The mathematical value of a digit sequence, read left to right. *)
Definition evalFrom (a : Z) (ds : list ascii) : Z :=
  fold_left (fun acc c => 10 * acc + digitValue c) ds a.

Definition mathInt (ds : list ascii) : Z := evalFrom 0 ds.

(** Sign and remainder after an optional leading [+] or [-]. *)
Definition splitSign (s : string) : Z * string :=
  match s with
  | String "-" r => (-1, r)
  | String "+" r => (1, r)
  | _ => (1, s)
  end.

(** [Number.MAX_SAFE_INTEGER] *)
Definition MAX_SAFE_INTEGER : Z := 2 ^ 53 - 1.

(** [Number.parseInt(s, 10)]: trim leading white space, read an optional
    sign, take the longest run of decimal digits; [NaN] when that run is
    empty.  The value is the mathematical one of the digits; it is the
    number that the run time returns as long as the digits denote at most
    [MAX_SAFE_INTEGER] (beyond it the run time rounds to a double). *)
Definition parseInt (s : string) : Number :=
  let (sign, rest) := splitSign (trimStart s) in
  match digitPrefix rest with
  | [] => NaN
  | ds => Int (sign * mathInt ds)
  end.

(** Decimal digits of a natural number, most significant first. *)
Definition digitChar (n : N) : ascii := ascii_of_N (48 + n).

Fixpoint digitsOf (fuel : nat) (n : N) (acc : list ascii) : list ascii :=
  match fuel with
  | O => acc
  | S fuel' =>
      let acc' := digitChar (n mod 10) :: acc in
      if (n / 10 =? 0)%N then acc' else digitsOf fuel' (n / 10)%N acc'
  end.

Definition decimal (n : N) : list ascii :=
  digitsOf (S (N.to_nat (N.log2 n))) n [].

(** [Number.prototype.toString()] on an integer. *)
Definition toString (z : Z) : string :=
  let body := string_of_list_ascii (decimal (Z.to_N (Z.abs z))) in
  if z <? 0 then String "-" body else body.

(** The pattern language of [RegExp] is modelled on the fragment whose
    terms are pattern characters, the wild card [.] and the assertion [^];
    a pattern that uses any other syntax character (escapes, quantifiers,
    groups, classes, alternation, [$]) lies outside the fragment. *)
Inductive Term : Type :=
| PatternCharacter (c : ascii)
| Dot
| AssertStart.

Definition RegExp : Type := list Term.

(** [SyntaxCharacter :: one of ^ $ \ . * + ? ( ) [ ] { } |] *)
Definition isSyntaxCharacter (c : ascii) : bool :=
  existsb (Ascii.eqb c) (list_ascii_of_string "^$\.*+?()[]{}|").

Definition parseTerm (c : ascii) : option Term :=
  if Ascii.eqb c "^" then Some AssertStart
  else if Ascii.eqb c "." then Some Dot
  else if isSyntaxCharacter c then None
  else Some (PatternCharacter c).

(** [new RegExp(pattern, 'iu')]; [None] outside the fragment. *)
Fixpoint newRegExp (pattern : string) : option RegExp :=
  match pattern with
  | EmptyString => Some []
  | String c r =>
      match parseTerm c, newRegExp r with
      | Some t, Some ts => Some (t :: ts)
      | _, _ => None
      end
  end.

Fixpoint contains (c : ascii) (s : string) : bool :=
  match s with
  | EmptyString => false
  | String d r => Ascii.eqb c d || contains c r
  end.

(** Patterns that [new RegExp(pattern, 'iu')] certainly refuses with a
    [SyntaxError]: a quantifier with nothing to repeat at the beginning, or
    an opening parenthesis that starts a group (no escape, no class in the
    pattern) which is never closed. *)
Definition refused (pattern : string) : bool :=
  match pattern with
  | String c _ => Ascii.eqb c "*" || Ascii.eqb c "+" || Ascii.eqb c "?"
  | EmptyString => false
  end
  || (contains "(" pattern && negb (contains ")" pattern)
      && negb (contains "\" pattern) && negb (contains "[" pattern)).

(** The capital letters among the code units below 256: A to Z, and
    A-grave to Thorn without the multiplication sign. *)
Definition isUpperCase (c : ascii) : bool :=
  let n := N_of_ascii c in
  ((65 <=? n) && (n <=? 90)
   || (192 <=? n) && (n <=? 222) && negb (n =? 215))%N.

(** [Canonicalize] under the flags [iu]: simple case folding, which on the
    code units below 256 sends a capital letter to its small letter. *)
Definition Canonicalize (c : ascii) : ascii :=
  if isUpperCase c then ascii_of_N (N_of_ascii c + 32) else c.

(** [LineTerminator], on the code units below 256: LF and CR. *)
Definition isLineTerminator (c : ascii) : bool :=
  let n := N_of_ascii c in ((n =? 10) || (n =? 13))%N.

(** Does the term sequence match at the current position?  [atStart] tells
    whether the position is the beginning of the input (no [m] flag). *)
Fixpoint matchHere (r : RegExp) (atStart : bool) (input : string) : bool :=
  match r with
  | [] => true
  | AssertStart :: r' => atStart && matchHere r' atStart input
  | PatternCharacter c :: r' =>
      match input with
      | String d input' =>
          Ascii.eqb (Canonicalize c) (Canonicalize d) && matchHere r' false input'
      | EmptyString => false
      end
  | Dot :: r' =>
      match input with
      | String d input' => negb (isLineTerminator d) && matchHere r' false input'
      | EmptyString => false
      end
  end.

Fixpoint searchFrom (r : RegExp) (atStart : bool) (input : string) : bool :=
  matchHere r atStart input
  || match input with
     | String _ input' => searchFrom r false input'
     | EmptyString => false
     end.

(** The match of a string against a regular expression without the flags
    [g] and [y], as [RegExp.prototype.test] and the [$regex] of the store
    decide it: is there a match anywhere in the input? *)
Definition test (r : RegExp) (input : string) : bool := searchFrom r true input.

(** [a ?? b] *)
Definition nullish {A : Type} (a : option A) (b : A) : A :=
  match a with Some x => x | None => b end.

End JS.

(* ================================================================= *)
(** ** The entity *)

Module Entity.

Inductive BuchArt : Type := DRUCKAUSGABE | KINDLE.

Record Autor : Type := { nachname : string; vorname : string }.

(** Interface [BuchData]. *)
Record BuchData : Type := {
  _id : option string;
  __v : option Z;
  createdAt : option Z;
  updatedAt : option Z;
  titel : string;
  rating : option Z;
  art : option BuchArt;
  verlag : string;
  preis : Q;
  rabatt : option Q;
  lieferbar : option bool;
  datum : option Z;
  isbn : string;
  homepage : option string;
  schlagwoerter : option (list string);
  autoren : list Autor
}.

(** The report of [validateBuch]: field name and message. *)
Definition ValidationErrorMsg : Type := list (string * string).

End Entity.
Import Entity.

(* ================================================================= *)
(** ** The failure kinds of the service *)

Module Errors.

Inductive BuchServiceError : Type :=
| BuchInvalid (msg : ValidationErrorMsg)
| BuchNotExists (id : option string)
| TitelExists (titel : string) (id : option string)
| IsbnExists (isbn : string) (id : option string)
| VersionInvalid (version : option string)
| VersionOutdated (id : string) (version : Z).

End Errors.
Import Errors.

(* ================================================================= *)
(** ** What the service is given from outside *)

(** A value of a query object: a string, [null], or something else (an
    array or an object of the query-string parser). *)
Inductive QueryValue : Type :=
| QString (s : string)
| QNull
| QOther.

(** The collaborators that are not part of the service: the validator of
    the entity module, and the document store's id generator, clock and
    matching of the criteria that the service passes on unchanged. *)
Class Platform : Type := {
  validateBuch : BuchData -> option ValidationErrorMsg;
  uuid : list BuchData -> string;
  now : Z;
  matchesCriteria : list (string * QueryValue) -> BuchData -> bool
}.

(* ================================================================= *)
(** ** The document store behind [BuchModel] *)

Module BuchModel.

(** The collection, in natural (insertion) order. *)
Definition Collection : Type := list BuchData.

Definition hasId (id : string) (b : BuchData) : bool :=
  match _id b with
  | Some i => String.eqb i id
  | None => false
  end.

(** [BuchModel.findById(id).lean()] *)
Definition findById (id : string) (db : Collection) : option BuchData :=
  List.find (hasId id) db.

(** [BuchModel.exists({ titel })] *)
Definition existsTitel (t : string) (db : Collection) : bool :=
  existsb (fun b => String.eqb (titel b) t) db.

(** [BuchModel.exists({ isbn })] *)
Definition existsIsbn (i : string) (db : Collection) : bool :=
  existsb (fun b => String.eqb (isbn b) i) db.

(** [BuchModel.findOne({ titel }, { _id: true }).lean()]: the [_id] of the
    first document with that [titel]. *)
Definition findOneTitel (t : string) (db : Collection) : option (option string) :=
  option_map _id (List.find (fun b => String.eqb (titel b) t) db).

(** The criteria handed to [BuchModel.find]. *)
Record DbQuery : Type := {
  dq_titel : option JS.RegExp;
  dq_schlagwoerter : option (list string);
  dq_rest : list (string * QueryValue)
}.

(** Modelled from the spec: how the store matches a criterion on the array
    of tags is not among the sources.  [findMany(filter)] filters by
    "set-membership on tags": a record matches when every tag of the
    criterion is one of its tags. *)
Definition matchesSchlagwoerter (tags : list string) (b : BuchData) : bool :=
  forallb (fun tag => existsb (String.eqb tag) (JS.nullish (schlagwoerter b) []))
          tags.

Definition matchesQuery `{Platform} (q : DbQuery) (b : BuchData) : bool :=
  match dq_titel q with
  | Some r => JS.test r (titel b)
  | None => true
  end
  && match dq_schlagwoerter q with
     | Some tags => matchesSchlagwoerter tags b
     | None => true
     end
  && matchesCriteria (dq_rest q) b.

(** [BuchModel.find(dbQuery).lean()] *)
Definition find `{Platform} (q : DbQuery) (db : Collection) : list BuchData :=
  List.filter (matchesQuery q) db.

Fixpoint insertByTitel (b : BuchData) (sorted : list BuchData) : list BuchData :=
  match sorted with
  | [] => [b]
  | c :: rest =>
      if String.leb (titel b) (titel c) then b :: sorted
      else c :: insertByTitel b rest
  end.

(** [BuchModel.find().sort('titel').lean()] *)
Definition findAllSorted (db : Collection) : list BuchData :=
  fold_right insertByTitel [] db.

Definition withStoreFields (b : BuchData) (id : string) (v : Z)
    (created : option Z) (updated : Z) : BuchData :=
  {| _id := Some id; __v := Some v;
     createdAt := created; updatedAt := Some updated;
     titel := titel b; rating := rating b; art := art b; verlag := verlag b;
     preis := preis b; rabatt := rabatt b; lieferbar := lieferbar b;
     datum := datum b; isbn := isbn b; homepage := homepage b;
     schlagwoerter := schlagwoerter b; autoren := autoren b |}.

(** Modelled from the spec: the schema of the entity module (id generation,
    version key, timestamps) is not among the sources.  [insert(Record) -> id]
    persists with version 0, a server-assigned id and server-assigned
    timestamps. *)
Definition save `{Platform} (auto : BuchData) (db : Collection)
    : BuchData * Collection :=
  let saved := withStoreFields auto (uuid db) 0 (Some now) now in
  (saved, (db ++ [saved])%list).

Fixpoint replaceFirst (id : string) (doc : BuchData) (db : Collection) : Collection :=
  match db with
  | [] => []
  | b :: rest => if hasId id b then doc :: rest else b :: replaceFirst id doc rest
  end.

(** Modelled from the spec: the update hook of the entity schema is not among
    the sources.  [replaceById(id, Record) -> Record?] replaces the stored
    record at [id] with the candidate's fields, increments [version] to
    [storedVersion + 1] as part of the write and returns the updated
    document, or none if the id has no document. *)
Definition findByIdAndUpdate `{Platform} (id : string) (auto : BuchData)
    (db : Collection) : option BuchData * Collection :=
  match findById id db with
  | None => (None, db)
  | Some stored =>
      let updated :=
        withStoreFields auto id (JS.nullish (__v stored) 0 + 1)
                        (createdAt stored) now in
      (Some updated, replaceFirst id updated db)
  end.

Fixpoint removeFirst (id : string) (db : Collection) : Collection :=
  match db with
  | [] => []
  | b :: rest => if hasId id b then rest else b :: removeFirst id rest
  end.

(** [BuchModel.findByIdAndDelete(id).lean()] *)
Definition findByIdAndDelete (id : string) (db : Collection)
    : option BuchData * Collection :=
  match findById id db with
  | None => (None, db)
  | Some deleted => (Some deleted, removeFirst id db)
  end.

End BuchModel.

(* ================================================================= *)
(** ** The mail side of [create] *)

Record SendMailOptions : Type := {
  from : string;
  to : string;
  subject : string;
  html : string
}.

(** [cloud] and [mailConfig] of the shared module, and the behaviour of the
    mail transport: importing it may fail, and sending may be rejected. *)
Record MailEnv : Type := {
  cloud : option string;
  mailConfigHost : string;
  importNodemailer : option string;
  sendMail : SendMailOptions -> option string
}.

(** What [logger.error] receives. *)
Inductive LogEntry : Type :=
| LogError (message : string) (err : string).

(* ================================================================= *)
(** ** The application core: class [BuchService] *)

Module BuchService.

Import BuchModel.

(** [delete auto.createdAt; delete auto.updatedAt] *)
Definition deleteTimestamps (auto : BuchData) : BuchData :=
  {| _id := _id auto; __v := __v auto;
     createdAt := None; updatedAt := None;
     titel := titel auto; rating := rating auto; art := art auto;
     verlag := verlag auto; preis := preis auto; rabatt := rabatt auto;
     lieferbar := lieferbar auto; datum := datum auto; isbn := isbn auto;
     homepage := homepage auto; schlagwoerter := schlagwoerter auto;
     autoren := autoren auto |}.

Definition findById (id : string) (db : Collection) : option BuchData :=
  match BuchModel.findById id db with
  | None => None
  | Some auto => Some (deleteTimestamps auto)
  end.

(** The query object: the three properties that [find] takes apart, and
    the rest properties. *)
Record Query : Type := {
  q_titel : option QueryValue;
  q_javascript : option QueryValue;
  q_typescript : option QueryValue;
  q_rest : list (string * QueryValue)
}.

(** [Object.entries(query).length === 0] *)
Definition noEntries (q : Query) : bool :=
  match q_titel q, q_javascript q, q_typescript q, q_rest q with
  | None, None, None, [] => true
  | _, _, _, _ => false
  end.

Definition isTrue (v : option QueryValue) : bool :=
  match v with
  | Some (QString s) => String.eqb s "true"
  | _ => false
  end.

Definition deleteKey (k : string) (o : list (string * QueryValue))
    : list (string * QueryValue) :=
  List.filter (fun kv => negb (String.eqb (fst kv) k)) o.

(** What [find] hands back: the array; the information that the pattern
    leaves the modelled fragment of [RegExp]; or the [SyntaxError] that the
    constructor of [RegExp] throws. *)
Inductive FindOutcome : Type :=
| Found (autos : list BuchData)
| PatternOutsideFragment
| SyntaxError.

(** The [titel] criterion of [dbQuery]: a regular expression when the
    property is a string shorter than 10, nothing otherwise. *)
Definition titelCriterion (t : option QueryValue) : option (option JS.RegExp) :=
  match t with
  | Some (QString s) =>
      if Nat.ltb (String.length s) 10
      then option_map Some (JS.newRegExp s)
      else Some None
  | _ => Some None
  end.

(** Is the [titel] a pattern that the constructor of [RegExp] refuses? *)
Definition titelRefused (t : option QueryValue) : bool :=
  match t with
  | Some (QString s) => Nat.ltb (String.length s) 10 && JS.refused s
  | _ => false
  end.

Definition schlagwoerterCriterion (q : Query) : option (list string) :=
  let tags :=
    ((if isTrue (q_javascript q) then ["JAVASCRIPT"] else [])
       ++ (if isTrue (q_typescript q) then ["TYPESCRIPT"] else []))%list in
  match tags with
  | [] => None
  | _ => Some tags
  end.

Definition find `{Platform} (query : option Query) (db : Collection) : FindOutcome :=
  match query with
  | None => Found (map deleteTimestamps (findAllSorted db))
  | Some q =>
      if noEntries q then Found (map deleteTimestamps (findAllSorted db))
      else
        match titelCriterion (q_titel q) with
        | None =>
            if titelRefused (q_titel q) then SyntaxError
            else PatternOutsideFragment
        | Some re =>
            let dbQuery :=
              {| dq_titel := re;
                 dq_schlagwoerter := schlagwoerterCriterion q;
                 dq_rest := deleteKey "schlagwoerter" (q_rest q) |} in
            Found (map deleteTimestamps (BuchModel.find dbQuery db))
        end
  end.

Definition validateCreate `{Platform} (auto : BuchData) (db : Collection)
    : option BuchServiceError :=
  match validateBuch auto with
  | Some msg => Some (BuchInvalid msg)
  | None =>
      if existsTitel (titel auto) db then Some (TitelExists (titel auto) None)
      else if existsIsbn (isbn auto) db then Some (IsbnExists (isbn auto) None)
      else None
  end.

(** A name between double quotes. *)
Definition quoted (s : string) : string :=
  let dq := String (ascii_of_nat 34) EmptyString in dq ++ s ++ dq.

(** A template literal prints an absent value as [undefined]. *)
Definition showOpt (s : option string) : string :=
  match s with Some x => x | None => "undefined" end.

Definition sendmail (mail : MailEnv) (auto : BuchData) : list LogEntry :=
  match cloud mail with
  | Some _ => []
  | None =>
      if String.eqb (mailConfigHost mail) "skip" then []
      else
        let data :=
          {| from := quoted "Joe Doe" ++ " <Joe.Doe@acme.com>";
             to := quoted "Foo Bar" ++ " <Foo.Bar@acme.com>";
             subject := "Neues Buch " ++ showOpt (_id auto);
             html := "Das Buch mit dem Titel <strong>" ++ titel auto
                       ++ "</strong> ist angelegt" |} in
        match importNodemailer mail with
        | Some err =>
            [LogError "BuchService.create(): Fehler beim Verschicken der Email" err]
        | None =>
            match sendMail mail data with
            | Some err =>
                [LogError "BuchService.create(): Fehler beim Verschicken der Email" err]
            | None => []
            end
        end
  end.

(** [saved._id as string]; a saved document always has its id. *)
Definition asString (s : option string) : string := JS.nullish s EmptyString.

Definition create `{Platform} (mail : MailEnv) (auto : BuchData) (db : Collection)
    : (BuchServiceError + string) * Collection * list LogEntry :=
  match validateCreate auto db with
  | Some err => (inl err, db, [])
  | None =>
      let (saved, db') := save auto db in
      let id := asString (_id saved) in
      (inr id, db', sendmail mail auto)
  end.

Definition validateVersion (versionStr : option string) : BuchServiceError + Z :=
  match versionStr with
  | None => inl (VersionInvalid versionStr)
  | Some s =>
      match JS.parseInt s with
      | JS.NaN => inl (VersionInvalid versionStr)
      | JS.Int version => inr version
      end
  end.

Definition checkTitelExists (auto : BuchData) (db : Collection)
    : option BuchServiceError :=
  match findOneTitel (titel auto) db with
  | Some id => Some (TitelExists (titel auto) id)
  | None => None
  end.

Definition checkIdAndVersion (id : string) (version : Z) (db : Collection)
    : option BuchServiceError :=
  match BuchModel.findById id db with
  | None => Some (BuchNotExists (Some id))
  | Some autoDb =>
      let versionDb := JS.nullish (__v autoDb) 0 in
      if version <? versionDb then Some (VersionOutdated id version)
      else None
  end.

Definition optEqb (a b : option string) : bool :=
  match a, b with
  | Some x, Some y => String.eqb x y
  | None, None => true
  | _, _ => false
  end.

(** The [id] property of a failure, where it has one. *)
Definition errorId (e : BuchServiceError) : option string :=
  match e with
  | BuchNotExists id => id
  | TitelExists _ id => id
  | IsbnExists _ id => id
  | VersionOutdated id _ => Some id
  | BuchInvalid _ | VersionInvalid _ => None
  end.

Definition validateUpdate `{Platform} (auto : BuchData)
    (versionStr : option string) (db : Collection) : option BuchServiceError :=
  match validateVersion versionStr with
  | inl err => Some err
  | inr version =>
      match validateBuch auto with
      | Some validationMsg => Some (BuchInvalid validationMsg)
      | None =>
          let afterTitel :=
            match _id auto with
            | None => Some (BuchNotExists None)
            | Some id => checkIdAndVersion id version db
            end in
          match checkTitelExists auto db with
          | Some resultTitel =>
              if negb (optEqb (errorId resultTitel) (_id auto))
              then Some resultTitel
              else afterTitel
          | None => afterTitel
          end
      end
  end.

(** [updated.__v as number]; the store always sets the version key. *)
Definition asNumber (v : option Z) : Z := JS.nullish v 0.

(** [update], with what the other requests do to the collection between
    the checks of [validateUpdate] and the write made explicit. *)
Definition updateRacing `{Platform} (others : Collection -> Collection)
    (auto : BuchData) (versionStr : option string) (db : Collection)
    : (BuchServiceError + Z) * Collection :=
  match validateUpdate auto versionStr db with
  | Some err => (inl err, db)
  | None =>
      let db1 := others db in
      let (updated, db2) :=
        match _id auto with
        | Some id => findByIdAndUpdate id auto db1
        | None => (None, db1)
        end in
      match updated with
      | None => (inl (BuchNotExists (_id auto)), db2)
      | Some u => (inr (asNumber (__v u)), db2)
      end
  end.

(** [update] when no other request touches the collection in between. *)
Definition update `{Platform} (auto : BuchData) (versionStr : option string)
    (db : Collection) : (BuchServiceError + Z) * Collection :=
  updateRacing (fun c => c) auto versionStr db.

Definition delete (id : string) (db : Collection) : bool * Collection :=
  let (deleted, db') := findByIdAndDelete id db in
  (match deleted with Some _ => true | None => false end, db').

End BuchService.

(* ================================================================= *)
(** ** The GraphQL resolver of the update mutation *)

Module Resolvers.

Definition updateBuch `{Platform} (auto : BuchData) (db : BuchModel.Collection)
    : (BuchServiceError + Z) * BuchModel.Collection :=
  let version := JS.nullish (__v auto) 0 in
  BuchService.update auto (Some (JS.toString version)) db.

End Resolvers.

(* ================================================================= *)
(** ** The words of the specification, for comparison *)

Module Spec.

Fixpoint lower (s : string) : string :=
  match s with
  | EmptyString => EmptyString
  | String c r => String (JS.Canonicalize c) (lower r)
  end.

(** [small] is the small letter of the capital letter [capital]: the
    capital is one of A to Z or of A-grave to Thorn (the multiplication
    sign is no letter), and the small letter stands 32 places after it. *)
Definition smallOf (capital small : ascii) : Prop :=
  let u := N_of_ascii capital in
  N_of_ascii small = (u + 32)%N
  /\ ((65 <= u <= 90)%N \/ ((192 <= u <= 222)%N /\ u <> 215%N)).

(** The same character up to letter case. *)
Definition sameLetter (a b : ascii) : Prop :=
  a = b \/ smallOf a b \/ smallOf b a.

(** Two strings that are equal up to letter case, character by character. *)
Inductive equalIgnoringCase : string -> string -> Prop :=
| equalIgnoringCase_empty : equalIgnoringCase EmptyString EmptyString
| equalIgnoringCase_char (a b : ascii) (s t : string) :
    sameLetter a b -> equalIgnoringCase s t ->
    equalIgnoringCase (String a s) (String b t).

(** "partial-match on name via case-insensitive substring": some part of
    the name is the filter up to letter case. *)
Definition containsIgnoringCase (filter name : string) : Prop :=
  exists before part after,
    name = before ++ part ++ after /\ equalIgnoringCase part filter.

(** The tags of a record. *)
Definition tagsOf (b : BuchData) : list string := JS.nullish (schlagwoerter b) [].

(** "set-membership on tags": every tag that the query asks for with the
    value [true] is a tag of the record. *)
Definition hasRequestedTags (q : BuchService.Query) (b : BuchData) : Prop :=
  (BuchService.q_javascript q = Some (QString "true") -> In "JAVASCRIPT" (tagsOf b))
  /\ (BuchService.q_typescript q = Some (QString "true") ->
      In "TYPESCRIPT" (tagsOf b)).

(** The properties of the query that [find] hands on unchanged. *)
Definition remainingCriteria (q : BuchService.Query) : list (string * QueryValue) :=
  BuchService.deleteKey "schlagwoerter" (BuchService.q_rest q).

(** A numeric token: after leading white space and an optional sign it
    begins with a decimal digit. *)
Definition numeric (token : string) : bool :=
  match snd (JS.splitSign (JS.trimStart token)) with
  | String c _ => JS.isDigit c
  | EmptyString => false
  end.

(** The criteria of a query apart from the one on the title. *)
Definition otherCriteria (q : BuchService.Query) : BuchModel.DbQuery :=
  {| BuchModel.dq_titel := None;
     BuchModel.dq_schlagwoerter := BuchService.schlagwoerterCriterion q;
     BuchModel.dq_rest := BuchService.deleteKey "schlagwoerter" (BuchService.q_rest q) |}.

(** "all other stored fields are returned intact" *)
Definition sameOtherFields (stored returned : BuchData) : Prop :=
  _id returned = _id stored /\ __v returned = __v stored
  /\ titel returned = titel stored /\ rating returned = rating stored
  /\ art returned = art stored /\ verlag returned = verlag stored
  /\ preis returned = preis stored /\ rabatt returned = rabatt stored
  /\ lieferbar returned = lieferbar stored /\ datum returned = datum stored
  /\ isbn returned = isbn stored /\ homepage returned = homepage stored
  /\ schlagwoerter returned = schlagwoerter stored
  /\ autoren returned = autoren stored.

End Spec.

(* ================================================================= *)
(** ** Test data and a concrete platform *)

Module Testdaten.

Definition alpha : BuchData :=
  {| _id := Some "00000000-0000-0000-0000-000000000001";
     __v := Some 0; createdAt := Some 1580515200; updatedAt := Some 1580515200;
     titel := "Alpha"; rating := Some 4; art := Some DRUCKAUSGABE;
     verlag := "FOO_PRODUZENT"; preis := 11.1%Q; rabatt := Some 0.011%Q;
     lieferbar := Some true; datum := Some 1580515200;
     isbn := "978-3897225831"; homepage := Some "https://acme.at/";
     schlagwoerter := Some ["JAVASCRIPT"];
     autoren := [ {| nachname := "Alpha"; vorname := "Adriana" |};
                  {| nachname := "Alpha"; vorname := "Alfred" |} ] |}.

Definition beta : BuchData :=
  {| _id := Some "00000000-0000-0000-0000-000000000002";
     __v := Some 0; createdAt := Some 1580601600; updatedAt := Some 1580601600;
     titel := "Beta"; rating := Some 2; art := Some KINDLE;
     verlag := "BAR_PRODUZENT"; preis := 22.2%Q; rabatt := Some 0.022%Q;
     lieferbar := Some true; datum := Some 1580601600;
     isbn := "978-3827315526"; homepage := Some "https://acme.biz/";
     schlagwoerter := Some ["TYPESCRIPT"];
     autoren := [ {| nachname := "Beta"; vorname := "Brunhilde" |} ] |}.

Definition testdaten : BuchModel.Collection := [alpha; beta].

(** A candidate as a client submits it: no id, no version, no timestamps. *)
Definition candidate (t i : string) : BuchData :=
  {| _id := None; __v := None; createdAt := None; updatedAt := None;
     titel := t; rating := Some 1; art := Some KINDLE;
     verlag := "FOO_PRODUZENT"; preis := 33.3%Q; rabatt := Some 0.033%Q;
     lieferbar := Some true; datum := None;
     isbn := i; homepage := None;
     schlagwoerter := None; autoren := [] |}.

Definition withId (id : string) (b : BuchData) : BuchData :=
  {| _id := Some id; __v := __v b; createdAt := createdAt b;
     updatedAt := updatedAt b; titel := titel b; rating := rating b;
     art := art b; verlag := verlag b; preis := preis b; rabatt := rabatt b;
     lieferbar := lieferbar b; datum := datum b; isbn := isbn b;
     homepage := homepage b; schlagwoerter := schlagwoerter b;
     autoren := autoren b |}.

Definition alphaId : string := "00000000-0000-0000-0000-000000000001".

Definition unknownId : string := "00000000-0000-0000-0000-000000000999".

(** The first record sent back by a client that keeps its title. *)
Definition alphaNeu : BuchData := withId alphaId (candidate "Alpha" "978-3897225831").

(** The same with the version the client has read. *)
Definition alphaNeuV0 : BuchData :=
  {| _id := Some alphaId; __v := Some 0; createdAt := None; updatedAt := None;
     titel := "Alpha"; rating := Some 5; art := Some KINDLE;
     verlag := "FOO_PRODUZENT"; preis := 12.5%Q; rabatt := None;
     lieferbar := Some false; datum := None;
     isbn := "978-3897225831"; homepage := None;
     schlagwoerter := None; autoren := [] |}.

(** A record whose title holds a circumflex. *)
Definition caretBuch : BuchData :=
  withId "00000000-0000-0000-0000-000000000003" (candidate "a^b" "978-0201633610").

(** The query object [{ titel }]. *)
Definition titelQuery (t : string) : BuchService.Query :=
  {| BuchService.q_titel := Some (QString t);
     BuchService.q_javascript := None;
     BuchService.q_typescript := None;
     BuchService.q_rest := [] |}.

(** A validator that asks for a title and a non-negative price. *)
Definition testValidate (b : BuchData) : option ValidationErrorMsg :=
  let noTitel := if String.eqb (titel b) EmptyString
                 then [("titel", "Ein Buchtitel muss angegeben werden.")] else [] in
  let badPreis := if (Qnum (preis b) <? 0)
                  then [("preis", "Der Preis darf nicht negativ sein.")] else [] in
  match (noTitel ++ badPreis)%list with
  | [] => None
  | msg => Some msg
  end.

Definition testPlatform : Platform :=
  {| validateBuch := testValidate;
     uuid := fun db => "00000000-0000-0000-0000-00000000010"
                         ++ JS.toString (Z.of_nat (List.length db));
     now := 1612137600;
     matchesCriteria := fun rest _ => match rest with [] => true | _ => false end |}.

Definition mailOk : MailEnv :=
  {| cloud := None; mailConfigHost := "localhost";
     importNodemailer := None; sendMail := fun _ => None |}.

Definition mailDown : MailEnv :=
  {| cloud := None; mailConfigHost := "localhost";
     importNodemailer := None; sendMail := fun _ => Some "ECONNREFUSED" |}.

End Testdaten.

(* ================================================================= *)
(** ** The REST handler: class [BuchRequestHandler] *)

(** [mimeConfig.json] of the shared module. *)
Class Shared : Type := {
  mimeConfigJson : string
}.

Module Rest.

(** The status names of [HttpStatus] that the handler uses. *)
Inductive HttpStatus : Type :=
| CREATED
| NO_CONTENT
| NOT_MODIFIED
| BAD_REQUEST
| NOT_FOUND
| NOT_ACCEPTABLE
| PRECONDITION_FAILED
| PRECONDITION_REQUIRED
| INTERNAL_ERROR.

(** What the handler reads from the request: the path parameter [id], the
    headers [If-None-Match], [If-Match] and the one named by
    [mimeConfig.contentType], the body, the query object, and what
    [getBaseUri] makes of the request. *)
Record Request : Type := {
  paramsId : option string;
  ifNoneMatch : option string;
  ifMatch : option string;
  contentType : option string;
  reqBody : BuchData;
  reqQuery : BuchService.Query;
  baseUri : string
}.

Record Links : Type := {
  linkSelf : option string;
  linkList : option string;
  linkAdd : option string;
  linkUpdate : option string;
  linkRemove : option string
}.

(** Interface [BuchHAL]. *)
Record BuchHAL : Type := {
  halBuch : BuchData;
  _links : option Links
}.

Inductive Body : Type :=
| NoBody
| ReasonPhrase
| Text (msg : string)
| Violations (msg : ValidationErrorMsg)
| JsonBuch (auto : BuchHAL)
| JsonBuecher (autos : list BuchHAL).

(** The response object: the status when one was set (Express answers 200
    otherwise), the headers that the handler sets, the body, and whether
    the response was sent. *)
Record Response : Type := {
  statusCode : option HttpStatus;
  headers : list (string * string);
  body : Body;
  ended : bool
}.

Definition emptyResponse : Response :=
  {| statusCode := None; headers := []; body := NoBody; ended := false |}.

(** [res.status(code)] *)
Definition status (code : HttpStatus) (res : Response) : Response :=
  {| statusCode := Some code; headers := headers res; body := body res;
     ended := ended res |}.

(** [res.set(name, value)], [res.header(name, value)] *)
Definition set (name value : string) (res : Response) : Response :=
  {| statusCode := statusCode res;
     headers := (headers res ++ [(name, value)])%list;
     body := body res; ended := ended res |}.

(** [res.send(body)], [res.json(body)] *)
Definition send (b : Body) (res : Response) : Response :=
  {| statusCode := statusCode res; headers := headers res; body := b;
     ended := true |}.

(** [res.sendStatus(code)] *)
Definition sendStatus (code : HttpStatus) (res : Response) : Response :=
  send ReasonPhrase (status code res).

(** [String.prototype.toLowerCase], on the ASCII letters. *)
Definition toLowerCase (s : string) : string := Spec.lower s.

(** [contentType?.toLowerCase() !== mimeConfig.json] *)
Definition notJson `{Shared} (req : Request) : bool :=
  match contentType req with
  | Some ct => negb (String.eqb (toLowerCase ct) mimeConfigJson)
  | None => true
  end.

(** [delete auto._id; delete auto.__v] *)
Definition deleteIdAndVersion (auto : BuchData) : BuchData :=
  {| _id := None; __v := None;
     createdAt := createdAt auto; updatedAt := updatedAt auto;
     titel := titel auto; rating := rating auto; art := art auto;
     verlag := verlag auto; preis := preis auto; rabatt := rabatt auto;
     lieferbar := lieferbar auto; datum := datum auto; isbn := isbn auto;
     homepage := homepage auto; schlagwoerter := schlagwoerter auto;
     autoren := autoren auto |}.

(** The fields of a record other than [_id], [__v] and the timestamps. *)
Definition sameContent (stored sent : BuchData) : Prop :=
  titel sent = titel stored /\ rating sent = rating stored
  /\ art sent = art stored /\ verlag sent = verlag stored
  /\ preis sent = preis stored /\ rabatt sent = rabatt stored
  /\ lieferbar sent = lieferbar stored /\ datum sent = datum stored
  /\ isbn sent = isbn stored /\ homepage sent = homepage stored
  /\ schlagwoerter sent = schlagwoerter stored
  /\ autoren sent = autoren stored.

Definition toHAL (auto : BuchData) (req : Request) (id : string) : BuchHAL :=
  {| halBuch := deleteIdAndVersion auto;
     _links := Some {| linkSelf := Some (baseUri req ++ "/" ++ id);
                       linkList := Some (baseUri req);
                       linkAdd := Some (baseUri req);
                       linkUpdate := Some (baseUri req ++ "/" ++ id);
                       linkRemove := Some (baseUri req ++ "/" ++ id) |} |}.

(** A version in a template literal. *)
Definition showVersion (v : option Z) : string :=
  match v with Some z => JS.toString z | None => "undefined" end.

(** The handler [findById]. *)
Definition findById (req : Request) (db : BuchModel.Collection) : Response :=
  match paramsId req with
  | None => sendStatus INTERNAL_ERROR emptyResponse
  | Some id =>
      match BuchService.findById id db with
      | None => sendStatus NOT_FOUND emptyResponse
      | Some auto =>
          let versionDb := __v auto in
          let etag := BuchService.quoted (showVersion versionDb) in
          if match ifNoneMatch req with
             | Some versionHeader => String.eqb versionHeader etag
             | None => false
             end
          then sendStatus NOT_MODIFIED emptyResponse
          else send (JsonBuch (toHAL auto req id))
                    (set "ETag" etag emptyResponse)
      end
  end.

Definition selfLinked (base : string) (auto : BuchData) : BuchHAL :=
  {| halBuch := deleteIdAndVersion auto;
     _links := Some {| linkSelf := Some (base ++ "/" ++ BuchService.showOpt (_id auto));
                       linkList := None; linkAdd := None;
                       linkUpdate := None; linkRemove := None |} |}.

(** The handler [find]: what the service throws is answered with 500;
    [None] when the title pattern leaves the modelled fragment. *)
Definition find `{Platform} (req : Request) (db : BuchModel.Collection)
    : option Response :=
  match BuchService.find (Some (reqQuery req)) db with
  | BuchService.PatternOutsideFragment => None
  | BuchService.SyntaxError => Some (sendStatus INTERNAL_ERROR emptyResponse)
  | BuchService.Found autos =>
      match autos with
      | [] => Some (sendStatus NOT_FOUND emptyResponse)
      | _ => Some (send (JsonBuecher (map (selfLinked (baseUri req)) autos))
                        emptyResponse)
      end
  end.

Definition plainText (code : HttpStatus) (msg : string) : Response :=
  send (Text msg) (set "Content-Type" "text/plain" (status code emptyResponse)).

Definition handleValidationError (msg : ValidationErrorMsg) : Response :=
  send (Violations msg) (status BAD_REQUEST emptyResponse).

Definition handleTitelExists (titel : string) (id : option string) : Response :=
  plainText BAD_REQUEST
    ("Der Titel " ++ BuchService.quoted titel ++ " existiert bereits bei "
       ++ BuchService.showOpt id ++ ".").

Definition handleIsbnExists (isbn : string) (id : option string) : Response :=
  plainText BAD_REQUEST
    ("Die ISBN-Nummer " ++ BuchService.quoted isbn ++ " existiert bereits bei "
       ++ BuchService.showOpt id ++ ".").

(** A failure kind without a branch leaves the response as it is. *)
Definition handleCreateError (err : BuchServiceError) : Response :=
  match err with
  | BuchInvalid msg => handleValidationError msg
  | TitelExists titel id => handleTitelExists titel id
  | IsbnExists isbn id => handleIsbnExists isbn id
  | _ => emptyResponse
  end.

(** The handler [create]. *)
Definition create `{Platform} `{Shared} (mail : MailEnv) (req : Request)
    (db : BuchModel.Collection)
    : Response * BuchModel.Collection * list LogEntry :=
  if notJson req then (sendStatus NOT_ACCEPTABLE emptyResponse, db, [])
  else
    match BuchService.create mail (reqBody req) db with
    | (inl err, db', log) => (handleCreateError err, db', log)
    | (inr result, db', log) =>
        let location := baseUri req ++ "/" ++ result in
        (sendStatus CREATED (set "Location" location emptyResponse), db', log)
    end.

(** [versionHeader.slice(1, -1)] *)
Definition slice_1_m1 (s : string) : string :=
  substring 1 (String.length s - 2) s.

Definition getVersionHeader (req : Request) : Response + string :=
  match ifMatch req with
  | None => inl (plainText PRECONDITION_REQUIRED "Versionsnummer fehlt")
  | Some versionHeader =>
      if Nat.ltb (String.length versionHeader) 3
      then inl (plainText PRECONDITION_FAILED
                  ("Ungueltige Versionsnummer: " ++ versionHeader))
      else inr (slice_1_m1 versionHeader)
  end.

Definition handleUpdateError (err : BuchServiceError) : Response :=
  match err with
  | BuchInvalid msg => handleValidationError msg
  | BuchNotExists id =>
      plainText PRECONDITION_FAILED
        ("Es gibt kein Buch mit der ID " ++ BuchService.quoted (BuchService.showOpt id)
           ++ ".")
  | TitelExists titel id => handleTitelExists titel id
  | VersionInvalid version =>
      plainText PRECONDITION_REQUIRED
        ("Die Versionsnummer " ++ BuchService.quoted (BuchService.showOpt version)
           ++ " ist ungueltig.")
  | VersionOutdated _ version =>
      plainText PRECONDITION_FAILED
        ("Die Versionsnummer " ++ BuchService.quoted (JS.toString version)
           ++ " ist nicht aktuell.")
  | IsbnExists _ _ => emptyResponse
  end.

(** [auto._id = id] *)
Definition setId (id : option string) (auto : BuchData) : BuchData :=
  {| _id := id; __v := __v auto;
     createdAt := createdAt auto; updatedAt := updatedAt auto;
     titel := titel auto; rating := rating auto; art := art auto;
     verlag := verlag auto; preis := preis auto; rabatt := rabatt auto;
     lieferbar := lieferbar auto; datum := datum auto; isbn := isbn auto;
     homepage := homepage auto; schlagwoerter := schlagwoerter auto;
     autoren := autoren auto |}.

(** The handler [update]. *)
Definition update `{Platform} `{Shared} (req : Request)
    (db : BuchModel.Collection) : Response * BuchModel.Collection :=
  let id := paramsId req in
  if notJson req then (status NOT_ACCEPTABLE emptyResponse, db)
  else
    match getVersionHeader req with
    | inl res => (res, db)
    | inr version =>
        let auto := setId id (reqBody req) in
        match BuchService.update auto (Some version) db with
        | (inl err, db') => (handleUpdateError err, db')
        | (inr result, db') =>
            (sendStatus NO_CONTENT
               (set "ETag" (JS.toString result) emptyResponse), db')
        end
    end.

(** The handler [delete]. *)
Definition delete (req : Request) (db : BuchModel.Collection)
    : Response * BuchModel.Collection :=
  match paramsId req with
  | None => (sendStatus INTERNAL_ERROR emptyResponse, db)
  | Some id =>
      let (_, db') := BuchService.delete id db in
      (sendStatus NO_CONTENT emptyResponse, db')
  end.

End Rest.

(* ================================================================= *)
(** ** The other GraphQL resolvers *)

Module GraphqlResolvers.

(** A record with the properties [id] and [version] added to it. *)
Record BuchMitIdUndVersion : Type := {
  auto : BuchData;
  id : option string;
  version : option Z
}.

Definition withIdAndVersion (a : BuchData) : BuchMitIdUndVersion :=
  {| auto := a; id := _id a; version := __v a |}.

Definition findBuchById (i : string) (db : BuchModel.Collection)
    : option BuchMitIdUndVersion :=
  match BuchService.findById i db with
  | None => None
  | Some a => Some (withIdAndVersion a)
  end.

(** The argument [titel] of the query [autos]: left out, [null], or a
    string. *)
Inductive TitelArgument : Type :=
| TitelUndefined
| TitelNull
| TitelString (s : string).

(** [titel === undefined ? {} : { titel }] *)
Definition suchkriterium (titel : TitelArgument) : BuchService.Query :=
  {| BuchService.q_titel :=
       match titel with
       | TitelUndefined => None
       | TitelNull => Some QNull
       | TitelString s => Some (QString s)
       end;
     BuchService.q_javascript := None;
     BuchService.q_typescript := None;
     BuchService.q_rest := [] |}.

(** [None] when [find] does not return: the title pattern is refused, or
    it leaves the modelled fragment. *)
Definition findAutos `{Platform} (titel : TitelArgument)
    (db : BuchModel.Collection) : option (list BuchMitIdUndVersion) :=
  match BuchService.find (Some (suchkriterium titel)) db with
  | BuchService.Found autos => Some (map withIdAndVersion autos)
  | BuchService.PatternOutsideFragment => None
  | BuchService.SyntaxError => None
  end.

Definition createBuch `{Platform} (mail : MailEnv) (a : BuchData)
    (db : BuchModel.Collection)
    : option string * BuchModel.Collection * list LogEntry :=
  match BuchService.create mail a db with
  | (inl _, db', log) => (None, db', log)
  | (inr result, db', log) => (Some result, db', log)
  end.

Definition deleteBuch (i : string) (db : BuchModel.Collection)
    : bool * BuchModel.Collection :=
  BuchService.delete i db.

End GraphqlResolvers.

(* ================================================================= *)
(** ** Invariants of the collection *)

Module Invariants.

Definition ids (db : BuchModel.Collection) : list (option string) := map _id db.

(** [_id] is the key of the collection: every document has one, and no
    two documents share it. *)
Definition uniqueIds (db : BuchModel.Collection) : Prop :=
  NoDup (ids db) /\ forall b, In b db -> _id b <> None.

Definition uniqueTitel (db : BuchModel.Collection) : Prop := NoDup (map titel db).

Definition uniqueIsbn (db : BuchModel.Collection) : Prop := NoDup (map isbn db).

(** Ascending by title. *)
Definition titelLe (a b : BuchData) : Prop := String.leb (titel a) (titel b) = true.

End Invariants.

(* ================================================================= *)
(** ** Requests for the test data *)

Module Anfragen.

Definition testShared : Shared := {| mimeConfigJson := "application/json" |}.

Definition anfrage (i : option string) (inm im : option string)
    (b : BuchData) : Rest.Request :=
  {| Rest.paramsId := i; Rest.ifNoneMatch := inm; Rest.ifMatch := im;
     Rest.contentType := Some "application/json"; Rest.reqBody := b;
     Rest.reqQuery := {| BuchService.q_titel := None;
                         BuchService.q_javascript := None;
                         BuchService.q_typescript := None;
                         BuchService.q_rest := [] |};
     Rest.baseUri := "https://localhost:3000/api/autos" |}.

(** Read the first record. *)
Definition lesen : Rest.Request :=
  anfrage (Some Testdaten.alphaId) None None Testdaten.alpha.

(** Send the first record back with the version read. *)
Definition aendern : Rest.Request :=
  anfrage (Some Testdaten.alphaId) None
    (Some (BuchService.quoted "0")) Testdaten.alphaNeuV0.

(** Send it once more with the [ETag] of the answer to [aendern]. *)
Definition nochmal : Rest.Request :=
  anfrage (Some Testdaten.alphaId) None (Some "1") Testdaten.alphaNeuV0.

(** The same as [aendern] with another content type. *)
Definition alsText : Rest.Request :=
  {| Rest.paramsId := Some Testdaten.alphaId; Rest.ifNoneMatch := None;
     Rest.ifMatch := Some (BuchService.quoted "0");
     Rest.contentType := Some "text/plain";
     Rest.reqBody := Testdaten.alphaNeuV0;
     Rest.reqQuery := Rest.reqQuery aendern;
     Rest.baseUri := Rest.baseUri aendern |}.

Definition neuGamma : Rest.Request :=
  anfrage None None None (Testdaten.candidate "Gamma" "978-0201633610").

Definition neuAlpha : Rest.Request :=
  anfrage None None None (Testdaten.candidate "Alpha" "978-0007097326").

(** The collection after the update [aendern]. *)
Definition nachAendern : BuchModel.Collection :=
  snd (BuchService.update (H := Testdaten.testPlatform)
         Testdaten.alphaNeuV0 (Some "0") Testdaten.testdaten).

(** Search for a title. *)
Definition suche (t : string) : Rest.Request :=
  {| Rest.paramsId := None; Rest.ifNoneMatch := None; Rest.ifMatch := None;
     Rest.contentType := None; Rest.reqBody := Testdaten.alpha;
     Rest.reqQuery := Testdaten.titelQuery t;
     Rest.baseUri := "https://localhost:3000/api/autos" |}.

End Anfragen.

(* ================================================================= *)
(** ** Facts about the built-ins *)

Section JSFacts.

Import JS.

Lemma digitChar_isDigit (d : N) : (d < 10)%N -> isDigit (digitChar d) = true.
Proof.
  intros Hd. unfold isDigit, digitChar.
  rewrite N_ascii_embedding by lia.
  apply andb_true_intro; split; apply N.leb_le; lia.
Qed.

Lemma digitValue_digitChar (d : N) : (d < 10)%N -> digitValue (digitChar d) = Z.of_N d.
Proof.
  intros Hd. unfold digitValue, digitChar.
  rewrite N_ascii_embedding by lia. lia.
Qed.

Lemma digitsOf_acc (fuel : nat) : forall n acc,
  digitsOf fuel n acc = (digitsOf fuel n [] ++ acc)%list.
Proof.
  induction fuel as [|fuel IH]; intros n acc; simpl; [reflexivity|].
  destruct (n / 10 =? 0)%N; [reflexivity|].
  rewrite IH. rewrite (IH _ [_]). rewrite <- app_assoc. reflexivity.
Qed.

Lemma digitsOf_all_digits (fuel : nat) : forall n,
  Forall (fun c => isDigit c = true) (digitsOf fuel n []).
Proof.
  induction fuel as [|fuel IH]; intros n; simpl; [constructor|].
  assert (Hd : isDigit (digitChar (n mod 10)) = true)
    by (apply digitChar_isDigit; apply N.mod_lt; lia).
  destruct (n / 10 =? 0)%N.
  - constructor; [exact Hd | constructor].
  - rewrite digitsOf_acc. apply Forall_app; split; [apply IH|].
    constructor; [exact Hd | constructor].
Qed.

Lemma digitsOf_value (fuel : nat) : forall n,
  (n < 10 ^ N.of_nat fuel)%N ->
  evalFrom 0 (digitsOf fuel n []) = Z.of_N n.
Proof.
  induction fuel as [|fuel IH]; intros n Hn.
  - simpl in Hn. assert (n = 0%N) by lia. subst. reflexivity.
  - simpl digitsOf.
    assert (Hlt : (n mod 10 < 10)%N) by (apply N.mod_lt; lia).
    pose proof (N.div_mod n 10 ltac:(lia)) as Hdm.
    destruct (n / 10 =? 0)%N eqn:Hq.
    + apply N.eqb_eq in Hq. rewrite Hq in Hdm.
      unfold evalFrom. cbn [fold_left].
      rewrite digitValue_digitChar by exact Hlt. lia.
    + rewrite digitsOf_acc. unfold evalFrom. rewrite fold_left_app.
      fold (evalFrom 0 (digitsOf fuel (n / 10) [])).
      rewrite IH.
      * cbn [fold_left]. rewrite digitValue_digitChar by exact Hlt. lia.
      * rewrite Nat2N.inj_succ, N.pow_succ_r' in Hn.
        apply N.Div0.div_lt_upper_bound. lia.
Qed.

Lemma decimal_value (n : N) : mathInt (decimal n) = Z.of_N n.
Proof.
  unfold mathInt, decimal. apply (digitsOf_value _ n).
  destruct n as [|p]; [cbn; lia|].
  rewrite Nat2N.inj_succ, N2Nat.id.
  pose proof (N.log2_spec (N.pos p) ltac:(lia)) as [_ Hup].
  eapply N.lt_le_trans; [exact Hup|].
  apply N.pow_le_mono_l. lia.
Qed.

Lemma decimal_all_digits (n : N) : Forall (fun c => isDigit c = true) (decimal n).
Proof. apply digitsOf_all_digits. Qed.

Lemma decimal_not_nil (n : N) : decimal n <> [].
Proof.
  unfold decimal. simpl. destruct (n / 10 =? 0)%N; [discriminate|].
  rewrite digitsOf_acc. intros H. apply app_eq_nil in H. destruct H; discriminate.
Qed.

Lemma digitPrefix_all_digits (ds : list ascii) :
  Forall (fun c => isDigit c = true) ds ->
  digitPrefix (string_of_list_ascii ds) = ds.
Proof.
  induction 1 as [|c ds Hc _ IH]; simpl; [reflexivity|].
  rewrite Hc, IH. reflexivity.
Qed.

Lemma isDigit_not_space (c : ascii) : isDigit c = true -> isWhiteSpace c = false.
Proof.
  unfold isDigit, isWhiteSpace. intros H.
  apply andb_prop in H as [H1 H2]. apply N.leb_le in H1. apply N.leb_le in H2.
  repeat apply orb_false_intro.
  - apply andb_false_intro2. apply N.leb_gt. lia.
  - apply N.eqb_neq. lia.
  - apply N.eqb_neq. lia.
Qed.

Lemma isDigit_splitSign (c : ascii) (r : string) :
  isDigit c = true -> splitSign (String c r) = (1, String c r).
Proof.
  destruct c as [[] [] [] [] [] [] [] []]; intros H;
    try discriminate H; reflexivity.
Qed.

Lemma parseInt_toString (z : Z) : parseInt (toString z) = Int z.
Proof.
  unfold toString.
  set (n := Z.to_N (Z.abs z)).
  pose proof (decimal_all_digits n) as Hall.
  pose proof (decimal_not_nil n) as Hne.
  pose proof (decimal_value n) as Hval.
  destruct (z <? 0) eqn:Hz.
  - unfold parseInt. simpl trimStart. simpl splitSign. cbv iota beta.
    rewrite digitPrefix_all_digits by exact Hall.
    destruct (decimal n) as [|c ds] eqn:Hd; [contradiction|].
    rewrite Hval. apply Z.ltb_lt in Hz. f_equal. subst n. lia.
  - unfold parseInt.
    destruct (decimal n) as [|c ds] eqn:Hd; [contradiction|].
    inversion Hall as [|? ? Hc Hds]; subst.
    simpl string_of_list_ascii. simpl trimStart.
    rewrite (isDigit_not_space _ Hc).
    rewrite (isDigit_splitSign _ _ Hc). cbv iota beta.
    change (String c (string_of_list_ascii ds))
      with (string_of_list_ascii (c :: ds)).
    rewrite digitPrefix_all_digits by exact Hall.
    rewrite Hval. apply Z.ltb_ge in Hz. f_equal. subst n. lia.
Qed.

End JSFacts.

(* ================================================================= *)
(** ** Facts about the store *)

Section StoreFacts.

Import BuchModel.

Lemma optEqb_eq (a b : option string) : BuchService.optEqb a b = true <-> a = b.
Proof.
  destruct a as [x|], b as [y|]; simpl; split; intros E;
    try discriminate; try reflexivity.
  - apply String.eqb_eq in E. congruence.
  - apply String.eqb_eq. congruence.
Qed.

Lemma hasId_true (id : string) (b : BuchData) : hasId id b = true <-> _id b = Some id.
Proof.
  unfold hasId. destruct (_id b) as [i|]; split; intros E; try discriminate.
  - apply String.eqb_eq in E. congruence.
  - apply String.eqb_eq. congruence.
Qed.

Lemma findById_some (id : string) (db : Collection) (b : BuchData) :
  findById id db = Some b -> In b db /\ _id b = Some id.
Proof.
  intros E. apply find_some in E as [Hin Hid].
  split; [exact Hin | apply hasId_true; exact Hid].
Qed.

Lemma findById_none (id : string) (db : Collection) :
  findById id db = None <-> (forall b, In b db -> _id b <> Some id).
Proof.
  split.
  - intros E b Hin Hid. pose proof (find_none _ _ E b Hin) as Hf.
    apply hasId_true in Hid. congruence.
  - intros Hall. unfold findById.
    destruct (List.find (hasId id) db) as [b|] eqn:E; [|reflexivity].
    apply find_some in E as [Hin Hid]. apply hasId_true in Hid.
    exfalso. exact (Hall b Hin Hid).
Qed.

Lemma findById_replaceFirst (id : string) (doc : BuchData) (db : Collection) :
  _id doc = Some id -> findById id db <> None ->
  findById id (replaceFirst id doc db) = Some doc.
Proof.
  intros Hdoc. apply hasId_true in Hdoc. unfold findById.
  induction db as [|b rest IH]; simpl; intros Hex; [congruence|].
  destruct (hasId id b) eqn:Hb; simpl.
  - rewrite Hdoc. reflexivity.
  - rewrite Hb. apply IH. exact Hex.
Qed.

Lemma removeFirst_split (id : string) (db : Collection) (b : BuchData) :
  findById id db = Some b ->
  exists before after,
    db = (before ++ b :: after)%list
    /\ removeFirst id db = (before ++ after)%list
    /\ (forall c, In c before -> _id c <> Some id).
Proof.
  unfold findById. induction db as [|c rest IH]; simpl; intros E; [discriminate|].
  destruct (hasId id c) eqn:Hc.
  - injection E as <-. exists [], rest. repeat split. intros ? [].
  - destruct (IH E) as (before & after & -> & Hrm & Hpre).
    exists (c :: before), after. simpl. rewrite Hrm. repeat split.
    intros d [<-|Hin]; [|exact (Hpre d Hin)].
    intros Hid. apply hasId_true in Hid. congruence.
Qed.

Lemma In_insertByTitel (b x : BuchData) (l : list BuchData) :
  In x (insertByTitel b l) <-> x = b \/ In x l.
Proof.
  induction l as [|c rest IH]; simpl.
  - intuition.
  - destruct (String.leb (titel b) (titel c)); simpl; [intuition|].
    rewrite IH. intuition.
Qed.

Lemma In_findAllSorted (x : BuchData) (db : Collection) :
  In x (findAllSorted db) <-> In x db.
Proof.
  unfold findAllSorted. induction db as [|b rest IH]; simpl; [tauto|].
  rewrite In_insertByTitel, IH. intuition.
Qed.

Lemma findOneTitel_some (t : string) (db : Collection) (id : option string) :
  findOneTitel t db = Some id ->
  exists b, In b db /\ titel b = t /\ _id b = id.
Proof.
  unfold findOneTitel.
  destruct (List.find (fun b => String.eqb (titel b) t) db) as [b|] eqn:E;
    simpl; intros Hid; [|discriminate].
  apply find_some in E as [Hin Ht]. apply String.eqb_eq in Ht.
  exists b. repeat split; congruence.
Qed.

End StoreFacts.

(* ================================================================= *)
(** ** The version guard *)

Section VersionGuard.

Import JS BuchModel BuchService.

Lemma parseInt_numeric (s : string) :
  Spec.numeric s = true <-> parseInt s <> NaN.
Proof.
  unfold Spec.numeric, parseInt.
  destruct (splitSign (trimStart s)) as [sign rest]; simpl.
  destruct rest as [|c r]; simpl.
  - split; [discriminate | congruence].
  - destruct (isDigit c); split; try discriminate; congruence.
Qed.

Lemma parseInt_not_numeric (s : string) :
  Spec.numeric s = false <-> parseInt s = NaN.
Proof.
  pose proof (parseInt_numeric s) as [Hn1 Hn2].
  destruct (Spec.numeric s); destruct (parseInt s); split; intros E;
    try reflexivity; try discriminate.
  - exfalso. apply Hn1; reflexivity.
  - exfalso. assert (false = true) by (apply Hn2; discriminate).
    discriminate.
Qed.

Lemma digitValue_nonneg (c : ascii) : isDigit c = true -> 0 <= digitValue c.
Proof.
  unfold isDigit, digitValue. intros H.
  apply andb_prop in H as [H1 _]. apply N.leb_le in H1. lia.
Qed.

Lemma digitPrefix_digits (s : string) :
  Forall (fun c => isDigit c = true) (digitPrefix s).
Proof.
  induction s as [|c r IH]; simpl; [constructor|].
  destruct (isDigit c) eqn:Hc; constructor; assumption.
Qed.

Lemma evalFrom_nonneg (ds : list ascii) :
  Forall (fun c => isDigit c = true) ds ->
  forall a, 0 <= a -> 0 <= evalFrom a ds.
Proof.
  induction 1 as [|c ds Hc _ IH]; intros a Ha; [exact Ha|].
  change (0 <= evalFrom (10 * a + digitValue c) ds). apply IH.
  pose proof (digitValue_nonneg c Hc). lia.
Qed.

Lemma splitSign_sign (s : string) :
  fst (splitSign s) = 1 \/ (fst (splitSign s) = -1 /\ exists r, s = String "-" r).
Proof.
  destruct s as [|c r]; [left; reflexivity|].
  destruct c as [[] [] [] [] [] [] [] []];
    try (left; reflexivity).
  right. split; [reflexivity | exists r; reflexivity].
Qed.

Lemma validateUpdate_version_first `{Platform} (auto : BuchData)
    (versionStr : option string) (db : Collection) (err : BuchServiceError) :
  validateVersion versionStr = inl err ->
  validateUpdate auto versionStr db = Some err.
Proof. unfold validateUpdate. intros ->. reflexivity. Qed.

(** C1, as the code has it: a version token that is [undefined] or not
    numeric makes [update] return [VersionInvalid] with that token, before
    the candidate is looked at and whatever the candidate and the
    collection are, and the collection is left as it was.  For a numeric
    token whose digits denote at most [MAX_SAFE_INTEGER] the guard returns
    the integer that [parseInt] reads, sign included: it is non-negative
    unless the token (after white space) starts with a minus sign, and
    then it is negative or zero. *)
Theorem update_version_guard `{Platform} (auto : BuchData) (db : Collection)
    (others : Collection -> Collection) (versionStr : option string) :
  ((versionStr = None
    \/ exists s, versionStr = Some s /\ Spec.numeric s = false) ->
   validateVersion versionStr = inl (VersionInvalid versionStr)
   /\ updateRacing others auto versionStr db
      = (inl (VersionInvalid versionStr), db))
  /\
  (forall s, versionStr = Some s -> Spec.numeric s = true ->
   mathInt (digitPrefix (snd (splitSign (trimStart s)))) <= MAX_SAFE_INTEGER ->
   exists z,
     validateVersion versionStr = inr z
     /\ parseInt s = Int z
     /\ z = fst (splitSign (trimStart s))
            * mathInt (digitPrefix (snd (splitSign (trimStart s))))
     /\ ((forall r, trimStart s <> String "-" r) -> 0 <= z)
     /\ ((exists r, trimStart s = String "-" r) -> z <= 0)).
Proof.
  split.
  - intros Hbad.
    assert (Hv : validateVersion versionStr = inl (VersionInvalid versionStr)).
    { destruct Hbad as [-> | (s & -> & Hn)]; [reflexivity|].
      apply parseInt_not_numeric in Hn. unfold validateVersion.
      rewrite Hn. reflexivity. }
    split; [exact Hv|].
    unfold updateRacing.
    rewrite (validateUpdate_version_first _ _ _ _ Hv). reflexivity.
  - intros s -> Hnum _.
    pose proof (digitPrefix_digits (snd (splitSign (trimStart s)))) as Hds.
    pose proof (splitSign_sign (trimStart s)) as Hsign.
    unfold Spec.numeric in Hnum. unfold validateVersion, parseInt.
    destruct (splitSign (trimStart s)) as [sign rest] eqn:Hsplit.
    simpl in *.
    destruct rest as [|c r]; [discriminate|].
    simpl in *. rewrite Hnum in *.
    pose proof (evalFrom_nonneg _ Hds 0 ltac:(lia)) as Hnn.
    fold (mathInt (c :: digitPrefix r)) in Hnn.
    exists (sign * mathInt (c :: digitPrefix r)).
    repeat split.
    + intros Hno. destruct Hsign as [-> | [_ (r' & Hr')]]; [lia|].
      exfalso. exact (Hno r' Hr').
    + intros (r' & Hr'). destruct Hsign as [-> | [-> _]]; [|lia].
      rewrite Hr' in Hsplit. simpl in Hsplit. congruence.
Qed.

End VersionGuard.

Lemma update_version_guard_witness :
  (Spec.numeric "abc" = false
   /\ BuchService.updateRacing (H := Testdaten.testPlatform) (fun c => c)
        Testdaten.alpha (Some "abc") Testdaten.testdaten
      = (inl (VersionInvalid (Some "abc")), Testdaten.testdaten))
  /\ (Spec.numeric " 12abc" = true
      /\ JS.mathInt (JS.digitPrefix (snd (JS.splitSign (JS.trimStart " 12abc"))))
         <= JS.MAX_SAFE_INTEGER
      /\ BuchService.validateVersion (Some " 12abc") = inr 12).
Proof.
  split.
  - split; [reflexivity|].
    apply (update_version_guard (H := Testdaten.testPlatform)
             Testdaten.alpha Testdaten.testdaten (fun c => c) (Some "abc")).
    right. exists "abc". split; reflexivity.
  - split; [reflexivity|]. split; [vm_compute; discriminate|].
    destruct (update_version_guard (H := Testdaten.testPlatform)
                Testdaten.alpha Testdaten.testdaten (fun c => c)
                (Some " 12abc")) as [_ Hnum].
    destruct (Hnum " 12abc" eq_refl eq_refl ltac:(vm_compute; discriminate))
      as (z & Hv & Hp & _).
    rewrite Hv. f_equal. vm_compute in Hp. congruence.
Defined.

(** The token [-5] is numeric, the guard returns the negative integer -5
    for it, and [update] answers [VersionOutdated], not [VersionInvalid]. *)
Lemma update_version_guard_counterexample :
  Spec.numeric "-5" = true
  /\ BuchService.validateVersion (Some "-5") = inr (-5)
  /\ -5 < 0
  /\ fst (BuchService.update (H := Testdaten.testPlatform)
            Testdaten.alpha (Some "-5") Testdaten.testdaten)
     = inl (VersionOutdated "00000000-0000-0000-0000-000000000001" (-5)).
Proof. repeat split. Qed.

(* ================================================================= *)
(** ** The update pipeline *)

Section Update.

Import JS BuchModel BuchService.

Lemma checkTitelExists_own (auto : BuchData) (db : Collection) :
  (forall b, In b db -> titel b = titel auto -> _id b = _id auto) ->
  forall resultTitel, checkTitelExists auto db = Some resultTitel ->
  optEqb (errorId resultTitel) (_id auto) = true.
Proof.
  intros Hown resultTitel. unfold checkTitelExists.
  destruct (findOneTitel (titel auto) db) as [id|] eqn:E; [|discriminate].
  intros [= <-]. simpl.
  apply findOneTitel_some in E as (b & Hin & Ht & Hid).
  apply optEqb_eq. rewrite <- Hid. apply Hown; assumption.
Qed.

Lemma validateUpdate_reaches_currency `{Platform} (auto : BuchData)
    (versionStr : option string) (db : Collection) (id : string) (version : Z) :
  validateVersion versionStr = inr version ->
  validateBuch auto = None ->
  (forall b, In b db -> titel b = titel auto -> _id b = _id auto) ->
  _id auto = Some id ->
  validateUpdate auto versionStr db = checkIdAndVersion id version db.
Proof.
  intros Hv Hvalid Hown Hid. unfold validateUpdate.
  rewrite Hv, Hvalid. cbv zeta.
  pose proof (checkTitelExists_own auto db Hown) as Hself.
  destruct (checkTitelExists auto db) as [resultTitel|].
  - rewrite (Hself resultTitel eq_refl). simpl. rewrite Hid. reflexivity.
  - rewrite Hid. reflexivity.
Qed.

Lemma validateUpdate_ok_id `{Platform} (auto : BuchData)
    (versionStr : option string) (db : Collection) :
  validateUpdate auto versionStr db = None ->
  exists id version stored,
    _id auto = Some id
    /\ validateVersion versionStr = inr version
    /\ BuchModel.findById id db = Some stored
    /\ nullish (__v stored) 0 <= version.
Proof.
  intros Hok. unfold validateUpdate in Hok.
  destruct (validateVersion versionStr) as [err|version]; [discriminate|].
  destruct (validateBuch auto); [discriminate|]. cbv zeta in Hok.
  assert (Hcur : match _id auto with
                 | Some id => checkIdAndVersion id version db
                 | None => Some (BuchNotExists None)
                 end = None).
  { destruct (checkTitelExists auto db) as [resultTitel|]; [|exact Hok].
    destruct (negb (optEqb (errorId resultTitel) (_id auto)));
      [discriminate | exact Hok]. }
  clear Hok. destruct (_id auto) as [id|]; [|discriminate].
  unfold checkIdAndVersion in Hcur.
  destruct (BuchModel.findById id db) as [stored|] eqn:Hf; [|discriminate].
  destruct (version <? nullish (__v stored) 0) eqn:Hlt; [discriminate|].
  apply Z.ltb_ge in Hlt.
  exists id, version, stored. repeat split; assumption.
Qed.

Lemma updateRacing_write `{Platform} (others : Collection -> Collection)
    (auto : BuchData) (versionStr : option string) (db : Collection)
    (id : string) :
  validateUpdate auto versionStr db = None ->
  _id auto = Some id ->
  updateRacing others auto versionStr db
  = match BuchModel.findById id (others db) with
    | Some stored =>
        let v := nullish (__v stored) 0 + 1 in
        (inr v,
         replaceFirst id (withStoreFields auto id v (createdAt stored) now)
                      (others db))
    | None => (inl (BuchNotExists (Some id)), others db)
    end.
Proof.
  intros Hok Hid. unfold updateRacing. rewrite Hok, Hid. cbv zeta.
  unfold findByIdAndUpdate.
  destruct (BuchModel.findById id (others db)) as [stored|]; reflexivity.
Qed.

(** C2: the currency check loads the stored record of the id.  Without a
    record it returns [BuchNotExists(id)]; with a supplied version strictly
    below the stored one it returns [VersionOutdated(id, version)];
    otherwise it passes.  Inside [update], once the earlier checks have
    passed, these outcomes are the outcome of the update in the first two
    cases, and in the third the update goes on to the write and reports a
    new version. *)
Theorem checkIdAndVersion_currency `{Platform} (id : string) (version : Z)
    (db : Collection) :
  (BuchModel.findById id db = None ->
   checkIdAndVersion id version db = Some (BuchNotExists (Some id)))
  /\ (forall stored, BuchModel.findById id db = Some stored ->
      (version < nullish (__v stored) 0 ->
       checkIdAndVersion id version db = Some (VersionOutdated id version))
      /\ (nullish (__v stored) 0 <= version ->
          checkIdAndVersion id version db = None))
  /\ (forall auto versionStr,
      validateVersion versionStr = inr version ->
      validateBuch auto = None ->
      (forall b, In b db -> titel b = titel auto -> _id b = _id auto) ->
      _id auto = Some id ->
      match checkIdAndVersion id version db with
      | Some err => update auto versionStr db = (inl err, db)
      | None => exists newVersion db',
                  update auto versionStr db = (inr newVersion, db')
      end).
Proof.
  split; [|split].
  - unfold checkIdAndVersion. intros ->. reflexivity.
  - intros stored Hs. unfold checkIdAndVersion. rewrite Hs. cbv zeta. split.
    + intros Hlt. apply Z.ltb_lt in Hlt. rewrite Hlt. reflexivity.
    + intros Hge. apply Z.ltb_ge in Hge. rewrite Hge. reflexivity.
  - intros auto versionStr Hv Hvalid Hown Hid.
    pose proof (validateUpdate_reaches_currency
                  auto versionStr db id version Hv Hvalid Hown Hid) as Hreach.
    destruct (checkIdAndVersion id version db) as [err|] eqn:Hcur.
    + unfold update, updateRacing. rewrite Hreach. reflexivity.
    + unfold update.
      rewrite (updateRacing_write _ auto versionStr db id Hreach Hid).
      unfold checkIdAndVersion in Hcur.
      destruct (BuchModel.findById id db) as [stored|]; [|discriminate].
      eexists _, _. reflexivity.
Qed.

(** C3: when [update] has accepted the candidate and the collection that
    the write finds holds the record with stored version [v], the update
    returns [v + 1], and that is the version the collection holds for the
    id afterwards; when the write finds no document with the id, the update
    returns [BuchNotExists(id)]. *)
Theorem update_increments_version `{Platform}
    (others : Collection -> Collection) (auto : BuchData)
    (versionStr : option string) (db : Collection) (id : string) :
  validateUpdate auto versionStr db = None ->
  _id auto = Some id ->
  (forall stored, BuchModel.findById id (others db) = Some stored ->
   exists db' updated,
     updateRacing others auto versionStr db
     = (inr (nullish (__v stored) 0 + 1), db')
     /\ BuchModel.findById id db' = Some updated
     /\ __v updated = Some (nullish (__v stored) 0 + 1))
  /\ (BuchModel.findById id (others db) = None ->
      updateRacing others auto versionStr db
      = (inl (BuchNotExists (Some id)), others db)).
Proof.
  intros Hok Hid.
  rewrite (updateRacing_write others auto versionStr db id Hok Hid).
  split.
  - intros stored Hs. rewrite Hs. cbv zeta.
    eexists _, _. split; [reflexivity|]. split.
    + apply findById_replaceFirst; [reflexivity | congruence].
    + reflexivity.
  - intros ->. reflexivity.
Qed.

(** C5: when every record that holds the candidate's title has the
    candidate's own id, [update] reports no [TitelExists]. *)
Theorem update_no_self_conflict `{Platform}
    (others : Collection -> Collection) (auto : BuchData)
    (versionStr : option string) (db : Collection) :
  (forall b, In b db -> titel b = titel auto -> _id b = _id auto) ->
  forall t i,
    fst (updateRacing others auto versionStr db) <> inl (TitelExists t i).
Proof.
  intros Hown t i.
  pose proof (checkTitelExists_own auto db Hown) as Hself.
  unfold updateRacing.
  destruct (validateUpdate auto versionStr db) as [err|] eqn:Hval.
  - simpl. intros [= ->]. revert Hval. unfold validateUpdate.
    unfold validateVersion.
    destruct versionStr as [s|]; [|discriminate].
    destruct (parseInt s) as [|version]; [discriminate|].
    destruct (validateBuch auto); [discriminate|]. cbv zeta.
    assert (Hcur : match _id auto with
                   | Some id => checkIdAndVersion id version db
                   | None => Some (BuchNotExists None)
                   end <> Some (TitelExists t i)).
    { destruct (_id auto) as [id|]; [|discriminate].
      unfold checkIdAndVersion.
      destruct (BuchModel.findById id db) as [stored|]; [|discriminate].
      destruct (version <? nullish (__v stored) 0); discriminate. }
    destruct (checkTitelExists auto db) as [resultTitel|]; [|exact Hcur].
    rewrite (Hself resultTitel eq_refl). simpl. exact Hcur.
  - destruct (match _id auto with
              | Some id => findByIdAndUpdate id auto (others db)
              | None => (None, others db)
              end) as [[u|] db2]; simpl; discriminate.
Qed.

End Update.

Lemma alphaNeu_keeps_own_titel :
  forall b, In b Testdaten.testdaten ->
            titel b = titel Testdaten.alphaNeu -> _id b = _id Testdaten.alphaNeu.
Proof.
  intros b [<- | [<- | []]] Ht; [reflexivity | discriminate Ht].
Qed.

Lemma checkIdAndVersion_currency_witness :
  (BuchModel.findById Testdaten.unknownId Testdaten.testdaten = None
   /\ BuchService.checkIdAndVersion Testdaten.unknownId 0 Testdaten.testdaten
      = Some (BuchNotExists (Some Testdaten.unknownId)))
  /\ (BuchModel.findById Testdaten.alphaId Testdaten.testdaten
      = Some Testdaten.alpha
      /\ -1 < JS.nullish (__v Testdaten.alpha) 0
      /\ BuchService.checkIdAndVersion Testdaten.alphaId (-1) Testdaten.testdaten
         = Some (VersionOutdated Testdaten.alphaId (-1)))
  /\ (JS.nullish (__v Testdaten.alpha) 0 <= 0
      /\ BuchService.checkIdAndVersion Testdaten.alphaId 0 Testdaten.testdaten
         = None)
  /\ (exists newVersion db',
        BuchService.update (H := Testdaten.testPlatform) Testdaten.alphaNeu
          (Some "0") Testdaten.testdaten = (inr newVersion, db')).
Proof.
  pose proof (checkIdAndVersion_currency (H := Testdaten.testPlatform)
                Testdaten.unknownId 0 Testdaten.testdaten) as (Hnone & _ & _).
  pose proof (checkIdAndVersion_currency (H := Testdaten.testPlatform)
                Testdaten.alphaId (-1) Testdaten.testdaten) as (_ & Hold & _).
  pose proof (checkIdAndVersion_currency (H := Testdaten.testPlatform)
                Testdaten.alphaId 0 Testdaten.testdaten) as (_ & Hcur & Hupd).
  split; [|split; [|split]].
  - split; [reflexivity | apply Hnone; reflexivity].
  - split; [reflexivity|]. split; [reflexivity|].
    apply (Hold Testdaten.alpha eq_refl). reflexivity.
  - split; [discriminate|].
    apply (Hcur Testdaten.alpha eq_refl). discriminate.
  - exact (Hupd Testdaten.alphaNeu (Some "0") eq_refl eq_refl
             alphaNeu_keeps_own_titel eq_refl).
Defined.

Lemma update_increments_version_witness :
  BuchService.validateUpdate (H := Testdaten.testPlatform) Testdaten.alphaNeu
    (Some "0") Testdaten.testdaten = None
  /\ (exists db' updated,
        BuchService.updateRacing (H := Testdaten.testPlatform) (fun c => c)
          Testdaten.alphaNeu (Some "0") Testdaten.testdaten = (inr 1, db')
        /\ BuchModel.findById Testdaten.alphaId db' = Some updated
        /\ __v updated = Some 1)
  /\ BuchService.updateRacing (H := Testdaten.testPlatform) (fun _ => [])
       Testdaten.alphaNeu (Some "0") Testdaten.testdaten
     = (inl (BuchNotExists (Some Testdaten.alphaId)), []).
Proof.
  split; [reflexivity|]. split.
  - exact (proj1 (update_increments_version (H := Testdaten.testPlatform)
                    (fun c => c) Testdaten.alphaNeu (Some "0")
                    Testdaten.testdaten Testdaten.alphaId eq_refl eq_refl)
                 Testdaten.alpha eq_refl).
  - exact (proj2 (update_increments_version (H := Testdaten.testPlatform)
                    (fun _ => []) Testdaten.alphaNeu (Some "0")
                    Testdaten.testdaten Testdaten.alphaId eq_refl eq_refl)
                 eq_refl).
Defined.

Lemma update_no_self_conflict_witness :
  (forall b, In b Testdaten.testdaten ->
             titel b = titel Testdaten.alphaNeu -> _id b = _id Testdaten.alphaNeu)
  /\ fst (BuchService.updateRacing (H := Testdaten.testPlatform) (fun c => c)
            Testdaten.alphaNeu (Some "0") Testdaten.testdaten)
     <> inl (TitelExists "Alpha" (Some Testdaten.alphaId)).
Proof.
  split; [exact alphaNeu_keeps_own_titel|].
  apply (update_no_self_conflict (H := Testdaten.testPlatform) (fun c => c)
           Testdaten.alphaNeu (Some "0") Testdaten.testdaten
           alphaNeu_keeps_own_titel).
Defined.

(* ================================================================= *)
(** ** Create, delete and the read path *)

Section CreateDeleteRead.

Import JS BuchModel BuchService.

(** The checks of [create] in their order, with what each one returns. *)
Lemma create_check_order `{Platform} (mail : MailEnv) (auto : BuchData)
    (db : Collection) :
  match validateBuch auto with
  | Some msg => create mail auto db = (inl (BuchInvalid msg), db, [])
  | None =>
      if existsTitel (titel auto) db
      then create mail auto db = (inl (TitelExists (titel auto) None), db, [])
      else if existsIsbn (isbn auto) db
      then create mail auto db = (inl (IsbnExists (isbn auto) None), db, [])
      else create mail auto db
           = (inr (uuid db), snd (save auto db), sendmail mail auto)
  end.
Proof.
  unfold create, validateCreate.
  destruct (validateBuch auto); [reflexivity|].
  destruct (existsTitel (titel auto) db); [reflexivity|].
  destruct (existsIsbn (isbn auto) db); reflexivity.
Qed.

(** C4, on the code: a candidate whose title is the one of a stored record
    passes validation and is refused with [TitelExists], but the failure
    carries no id, although the record in conflict has one. *)
Theorem create_titel_conflict_without_id :
  validateBuch (Platform := Testdaten.testPlatform)
    (Testdaten.candidate "Alpha" "978-0007097326") = None
  /\ findOneTitel "Alpha" Testdaten.testdaten = Some (Some Testdaten.alphaId)
  /\ create (H := Testdaten.testPlatform) Testdaten.mailOk
       (Testdaten.candidate "Alpha" "978-0007097326") Testdaten.testdaten
     = (inl (TitelExists "Alpha" None), Testdaten.testdaten, []).
Proof. repeat split. Qed.

(** C6: [delete] returns [true] exactly when the collection holds a
    document with the id; then the first such document, and nothing else,
    is gone from the collection.  It returns [false] otherwise and leaves
    the collection as it was.  [delete] is total: it has no failure case. *)
Theorem delete_removed_or_absent (id : string) (db : Collection) :
  (fst (delete id db) = true <-> exists b, In b db /\ _id b = Some id)
  /\ (fst (delete id db) = true ->
      exists before b after,
        db = (before ++ b :: after)%list
        /\ _id b = Some id
        /\ (forall c, In c before -> _id c <> Some id)
        /\ snd (delete id db) = (before ++ after)%list)
  /\ (fst (delete id db) = false ->
      snd (delete id db) = db /\ forall b, In b db -> _id b <> Some id).
Proof.
  unfold delete, findByIdAndDelete.
  destruct (BuchModel.findById id db) as [deleted|] eqn:Hf; simpl.
  - pose proof (findById_some _ _ _ Hf) as [Hin Hid].
    split; [|split].
    + split; [intros _; exists deleted; split; assumption | reflexivity].
    + intros _. destruct (removeFirst_split _ _ _ Hf)
        as (before & after & Hdb & Hrm & Hpre).
      exists before, deleted, after. repeat split; assumption.
    + discriminate.
  - pose proof (proj1 (findById_none id db) Hf) as Hnone.
    split; [|split].
    + split; [discriminate|]. intros (b & Hin & Hid).
      exfalso. exact (Hnone b Hin Hid).
    + discriminate.
    + intros _. split; [reflexivity | exact Hnone].
Qed.

Lemma deleteTimestamps_sameOtherFields (stored : BuchData) :
  Spec.sameOtherFields stored (deleteTimestamps stored).
Proof. unfold Spec.sameOtherFields. repeat split. Qed.

Lemma find_found_from_collection `{Platform} (query : option Query)
    (db : Collection) (autos : list BuchData) :
  find query db = Found autos ->
  forall r, In r autos -> exists stored, In stored db /\ r = deleteTimestamps stored.
Proof.
  assert (Hall : forall r, In r (map deleteTimestamps (findAllSorted db)) ->
                 exists stored, In stored db /\ r = deleteTimestamps stored).
  { intros r Hr. apply in_map_iff in Hr as (stored & <- & Hin).
    exists stored. split; [apply In_findAllSorted; exact Hin | reflexivity]. }
  unfold find. destruct query as [q|].
  - destruct (noEntries q).
    + intros [= <-]. exact Hall.
    + destruct (titelCriterion (q_titel q)) as [re|];
        [|destruct (titelRefused (q_titel q)); discriminate].
      intros [= <-] r Hr. apply in_map_iff in Hr as (stored & <- & Hin).
      apply filter_In in Hin as [Hin _]. exists stored. split; [exact Hin | reflexivity].
  - intros [= <-]. exact Hall.
Qed.

(** C7: what [findById] and [find] return carries neither [createdAt] nor
    [updatedAt], and every record they return is a stored record with all
    its other fields unchanged; [findById] returns the stored record of
    the id whenever there is one. *)
Theorem read_path_strips_timestamps `{Platform} (db : Collection) :
  (forall id stored, BuchModel.findById id db = Some stored ->
   exists r, findById id db = Some r
             /\ createdAt r = None /\ updatedAt r = None
             /\ Spec.sameOtherFields stored r)
  /\ (forall id r, findById id db = Some r ->
      createdAt r = None /\ updatedAt r = None
      /\ exists stored, In stored db /\ _id stored = Some id
                        /\ Spec.sameOtherFields stored r)
  /\ (forall query autos r, find query db = Found autos -> In r autos ->
      createdAt r = None /\ updatedAt r = None
      /\ exists stored, In stored db /\ Spec.sameOtherFields stored r).
Proof.
  split; [|split].
  - intros id stored Hs. exists (deleteTimestamps stored).
    unfold findById. rewrite Hs. repeat split.
  - intros id r. unfold findById.
    destruct (BuchModel.findById id db) as [stored|] eqn:Hs; [|discriminate].
    intros [= <-]. apply findById_some in Hs as [Hin Hid].
    split; [reflexivity|]. split; [reflexivity|].
    exists stored. split; [exact Hin|]. split; [exact Hid|].
    apply deleteTimestamps_sameOtherFields.
  - intros query autos r Hfind Hr.
    destruct (find_found_from_collection query db autos Hfind r Hr)
      as (stored & Hin & ->).
    split; [reflexivity|]. split; [reflexivity|].
    exists stored. split; [exact Hin | apply deleteTimestamps_sameOtherFields].
Qed.

(** C8: what [create] returns and what it leaves in the collection do not
    depend on the mail side; a candidate that passes the checks of
    [validateCreate] gets its id back, and when the mail cannot be sent
    the failure goes to the log and nowhere else. *)
Theorem create_ignores_mail `{Platform} (mail mail' : MailEnv)
    (auto : BuchData) (db : Collection) :
  fst (create mail auto db) = fst (create mail' auto db)
  /\ (validateCreate auto db = None ->
      fst (create mail auto db) = (inr (uuid db), snd (save auto db)))
  /\ (validateCreate auto db = None ->
      cloud mail = None -> mailConfigHost mail <> "skip" ->
      forall err,
        (importNodemailer mail = Some err
         \/ (importNodemailer mail = None /\ forall data, sendMail mail data = Some err)) ->
        create mail auto db
        = (inr (uuid db), snd (save auto db),
           [LogError "BuchService.create(): Fehler beim Verschicken der Email" err])).
Proof.
  split; [|split].
  - unfold create. destruct (validateCreate auto db); reflexivity.
  - unfold create. intros ->. reflexivity.
  - intros Hok Hcloud Hhost err Hfail. unfold create. rewrite Hok.
    simpl. f_equal. unfold sendmail. rewrite Hcloud.
    destruct (String.eqb (mailConfigHost mail) "skip") eqn:Hskip.
    + apply String.eqb_eq in Hskip. contradiction.
    + destruct Hfail as [-> | [-> Hsend]]; [reflexivity|].
      rewrite Hsend. reflexivity.
Qed.

End CreateDeleteRead.

Lemma delete_removed_or_absent_witness :
  (fst (BuchService.delete Testdaten.alphaId Testdaten.testdaten) = true
   /\ exists before b after,
        Testdaten.testdaten = (before ++ b :: after)%list
        /\ _id b = Some Testdaten.alphaId
        /\ (forall c, In c before -> _id c <> Some Testdaten.alphaId)
        /\ snd (BuchService.delete Testdaten.alphaId Testdaten.testdaten)
           = (before ++ after)%list)
  /\ (fst (BuchService.delete Testdaten.unknownId Testdaten.testdaten) = false
      /\ snd (BuchService.delete Testdaten.unknownId Testdaten.testdaten)
         = Testdaten.testdaten).
Proof.
  split.
  - split; [reflexivity|].
    apply (delete_removed_or_absent Testdaten.alphaId Testdaten.testdaten).
    reflexivity.
  - split; [reflexivity|].
    apply (delete_removed_or_absent Testdaten.unknownId Testdaten.testdaten).
    reflexivity.
Defined.

Lemma read_path_strips_timestamps_witness :
  BuchModel.findById Testdaten.alphaId Testdaten.testdaten = Some Testdaten.alpha
  /\ (exists r, BuchService.findById Testdaten.alphaId Testdaten.testdaten = Some r
                /\ createdAt r = None /\ updatedAt r = None
                /\ Spec.sameOtherFields Testdaten.alpha r)
  /\ (BuchService.find (H := Testdaten.testPlatform) None Testdaten.testdaten
      = BuchService.Found [BuchService.deleteTimestamps Testdaten.alpha;
                           BuchService.deleteTimestamps Testdaten.beta]
      /\ createdAt (BuchService.deleteTimestamps Testdaten.beta) = None
      /\ updatedAt (BuchService.deleteTimestamps Testdaten.beta) = None).
Proof.
  pose proof (read_path_strips_timestamps (H := Testdaten.testPlatform)
                Testdaten.testdaten) as (Hfound & _ & Hfind).
  split; [reflexivity|]. split.
  - exact (Hfound Testdaten.alphaId Testdaten.alpha eq_refl).
  - split; [reflexivity|].
    destruct (Hfind None _ (BuchService.deleteTimestamps Testdaten.beta)
                eq_refl (or_intror (or_introl eq_refl))) as (Hc & Hu & _).
    split; assumption.
Defined.

Lemma create_ignores_mail_witness :
  BuchService.validateCreate (H := Testdaten.testPlatform)
    (Testdaten.candidate "Gamma" "978-0201633610") Testdaten.testdaten = None
  /\ fst (BuchService.create (H := Testdaten.testPlatform) Testdaten.mailDown
            (Testdaten.candidate "Gamma" "978-0201633610") Testdaten.testdaten)
     = fst (BuchService.create (H := Testdaten.testPlatform) Testdaten.mailOk
              (Testdaten.candidate "Gamma" "978-0201633610") Testdaten.testdaten)
  /\ fst (fst (BuchService.create (H := Testdaten.testPlatform) Testdaten.mailDown
                 (Testdaten.candidate "Gamma" "978-0201633610")
                 Testdaten.testdaten))
     = inr "00000000-0000-0000-0000-000000000102"
  /\ snd (BuchService.create (H := Testdaten.testPlatform) Testdaten.mailDown
            (Testdaten.candidate "Gamma" "978-0201633610") Testdaten.testdaten)
     = [LogError "BuchService.create(): Fehler beim Verschicken der Email"
                 "ECONNREFUSED"].
Proof.
  pose proof (create_ignores_mail (H := Testdaten.testPlatform)
                Testdaten.mailDown Testdaten.mailOk
                (Testdaten.candidate "Gamma" "978-0201633610")
                Testdaten.testdaten) as (Hsame & Hid & Hlog).
  split; [reflexivity|]. split; [exact Hsame|]. split.
  - rewrite (Hid eq_refl). reflexivity.
  - rewrite (Hlog eq_refl eq_refl ltac:(discriminate) "ECONNREFUSED"
               (or_intror (conj eq_refl (fun _ => eq_refl)))).
    reflexivity.
Defined.

(* ================================================================= *)
(** ** The title filter of [find] *)

Section TitelFilter.

Import JS BuchModel BuchService.

Lemma string_length_append (a b : string) :
  String.length (a ++ b) = (String.length a + String.length b)%nat.
Proof. induction a as [|c a IH]; simpl; [reflexivity | rewrite IH; reflexivity]. Qed.

Lemma parseTerm_pattern_character (c : ascii) :
  isSyntaxCharacter c = false -> parseTerm c = Some (PatternCharacter c).
Proof.
  intros Hs. unfold parseTerm. rewrite Hs.
  unfold isSyntaxCharacter in Hs. simpl in Hs.
  repeat (apply orb_false_elim in Hs as [?E Hs]).
  repeat match goal with E : Ascii.eqb c _ = false |- _ => rewrite E; clear E end.
  reflexivity.
Qed.

Lemma N_of_ascii_inj (c d : ascii) : N_of_ascii c = N_of_ascii d -> c = d.
Proof.
  intros E. rewrite <- (ascii_N_embedding c), <- (ascii_N_embedding d), E.
  reflexivity.
Qed.

Lemma isUpperCase_ranges (c : ascii) :
  isUpperCase c = true
  <-> ((65 <= N_of_ascii c <= 90)%N
       \/ ((192 <= N_of_ascii c <= 222)%N /\ N_of_ascii c <> 215%N)).
Proof.
  unfold isUpperCase. cbv zeta.
  rewrite orb_true_iff, !andb_true_iff, negb_true_iff, !N.leb_le, N.eqb_neq.
  tauto.
Qed.

Lemma N_of_Canonicalize (c : ascii) :
  N_of_ascii (Canonicalize c)
  = if isUpperCase c then (N_of_ascii c + 32)%N else N_of_ascii c.
Proof.
  unfold Canonicalize. destruct (isUpperCase c) eqn:Hu; [|reflexivity].
  apply isUpperCase_ranges in Hu. apply N_ascii_embedding. lia.
Qed.

(** The folding of the model identifies two characters exactly when they
    are the same letter up to case. *)
Lemma Canonicalize_sameLetter (c d : ascii) :
  Canonicalize c = Canonicalize d <-> Spec.sameLetter c d.
Proof.
  unfold Spec.sameLetter, Spec.smallOf. cbv zeta. split.
  - intros E. apply (f_equal N_of_ascii) in E.
    rewrite !N_of_Canonicalize in E.
    destruct (isUpperCase c) eqn:Hc, (isUpperCase d) eqn:Hd.
    + left. apply N_of_ascii_inj. lia.
    + right. left. apply isUpperCase_ranges in Hc. split; [lia | exact Hc].
    + right. right. apply isUpperCase_ranges in Hd. split; [lia | exact Hd].
    + left. apply N_of_ascii_inj. exact E.
  - intros [-> | [[Hs Hr] | [Hs Hr]]]; [reflexivity | |];
      apply N_of_ascii_inj; rewrite !N_of_Canonicalize.
    + assert (Hc : isUpperCase c = true) by (apply isUpperCase_ranges; exact Hr).
      assert (Hd : isUpperCase d = false).
      { destruct (isUpperCase d) eqn:Hd; [|reflexivity].
        apply isUpperCase_ranges in Hd. lia. }
      rewrite Hc, Hd. lia.
    + assert (Hd : isUpperCase d = true) by (apply isUpperCase_ranges; exact Hr).
      assert (Hc : isUpperCase c = false).
      { destruct (isUpperCase c) eqn:Hc; [|reflexivity].
        apply isUpperCase_ranges in Hc. lia. }
      rewrite Hc, Hd. lia.
Qed.

Lemma sameLetter_sym (a b : ascii) : Spec.sameLetter a b -> Spec.sameLetter b a.
Proof. unfold Spec.sameLetter. intros [-> | [E | E]]; tauto. Qed.

Lemma equalIgnoringCase_length (s t : string) :
  Spec.equalIgnoringCase s t -> String.length s = String.length t.
Proof. induction 1; simpl; congruence. Qed.

(** A pattern without syntax characters matches at a position exactly when
    the input goes on there with the pattern, letter case apart. *)
Lemma matchHere_literal (t : string) : forall r,
  (forall c, In c (list_ascii_of_string t) -> isSyntaxCharacter c = false) ->
  newRegExp t = Some r ->
  forall atStart input,
    matchHere r atStart input = true
    <-> exists part after,
          input = part ++ after /\ Spec.equalIgnoringCase part t.
Proof.
  induction t as [|c t IH]; intros r Hlit Hre atStart input.
  - injection Hre as <-. simpl. split; [|reflexivity].
    intros _. exists EmptyString, input. split; [reflexivity | constructor].
  - simpl in Hre.
    rewrite (parseTerm_pattern_character c (Hlit c (or_introl eq_refl))) in Hre.
    destruct (newRegExp t) as [r'|] eqn:Hr'; [|discriminate].
    injection Hre as <-.
    assert (Hlit' : forall c', In c' (list_ascii_of_string t) ->
                               isSyntaxCharacter c' = false)
      by (intros c' Hin; apply Hlit; right; exact Hin).
    specialize (IH r' Hlit' eq_refl).
    destruct input as [|d input']; simpl.
    + split; [discriminate|]. intros (part & after & Heq & Hpart).
      inversion Hpart; subst. discriminate Heq.
    + rewrite andb_true_iff, Ascii.eqb_eq, (IH false input'),
        Canonicalize_sameLetter.
      split.
      * intros [Hc (part & after & -> & Hpart)].
        exists (String d part), after. split; [reflexivity|].
        constructor; [apply sameLetter_sym; exact Hc | exact Hpart].
      * intros (part & after & Heq & Hpart).
        inversion Hpart as [|a b s' t' Hab Hrest]; subst.
        injection Heq as -> ->.
        split; [apply sameLetter_sym; exact Hab|].
        exists s', after. split; [reflexivity | exact Hrest].
Qed.

Lemma searchFrom_literal (t : string) (r : RegExp) :
  (forall c, In c (list_ascii_of_string t) -> isSyntaxCharacter c = false) ->
  newRegExp t = Some r ->
  forall input atStart,
    searchFrom r atStart input = true <-> Spec.containsIgnoringCase t input.
Proof.
  intros Hlit Hre. unfold Spec.containsIgnoringCase.
  induction input as [|d input' IH]; intros atStart; simpl;
    rewrite orb_true_iff, (matchHere_literal t r Hlit Hre).
  - split.
    + intros [(part & after & Heq & Hpart) | Habs]; [|discriminate].
      exists EmptyString, part, after. split; assumption.
    + intros (before & part & after & Heq & Hpart). left.
      destruct before as [|x before]; [|discriminate Heq].
      exists part, after. split; assumption.
  - rewrite (IH false). split.
    + intros [(part & after & Heq & Hpart)
             | (before & part & after & Heq & Hpart)].
      * exists EmptyString, part, after. split; assumption.
      * exists (String d before), part, after. simpl. rewrite Heq.
        split; [reflexivity | exact Hpart].
    + intros (before & part & after & Heq & Hpart).
      destruct before as [|x before].
      * left. exists part, after. split; assumption.
      * right. simpl in Heq. injection Heq as _ Hrest.
        exists before, part, after. split; assumption.
Qed.

Lemma newRegExp_literal (t : string) :
  (forall c, In c (list_ascii_of_string t) -> isSyntaxCharacter c = false) ->
  exists re, newRegExp t = Some re.
Proof.
  induction t as [|c t IH]; simpl; intros Hlit; [eexists; reflexivity|].
  rewrite (parseTerm_pattern_character c (Hlit c (or_introl eq_refl))).
  destruct IH as [re ->]; [intros c' Hin; apply Hlit; right; exact Hin|].
  eexists. reflexivity.
Qed.

Lemma isTrue_true (v : option QueryValue) :
  isTrue v = true <-> v = Some (QString "true").
Proof.
  unfold isTrue. destruct v as [[s| |]|]; split; intros E; try discriminate.
  - apply String.eqb_eq in E. congruence.
  - injection E as ->. reflexivity.
Qed.

Lemma existsb_tag (tag : string) (tags : list string) :
  existsb (String.eqb tag) tags = true <-> In tag tags.
Proof.
  rewrite existsb_exists. split.
  - intros (x & Hin & E). apply String.eqb_eq in E. congruence.
  - intros Hin. exists tag. split; [exact Hin | apply String.eqb_refl].
Qed.

(** The criteria apart from the title, in the words of the specification:
    the tags asked for are tags of the record, and the remaining
    properties match. *)
Lemma otherCriteria_spec `{Platform} (q : Query) (b : BuchData) :
  matchesQuery (Spec.otherCriteria q) b = true
  <-> Spec.hasRequestedTags q b
      /\ matchesCriteria (Spec.remainingCriteria q) b = true.
Proof.
  unfold matchesQuery, Spec.otherCriteria, Spec.hasRequestedTags,
    Spec.remainingCriteria, schlagwoerterCriterion, Spec.tagsOf.
  cbn [dq_titel dq_schlagwoerter dq_rest].
  rewrite <- !isTrue_true.
  destruct (isTrue (q_javascript q)), (isTrue (q_typescript q));
    cbn [app andb]; unfold matchesSchlagwoerter; cbn [forallb];
    rewrite ?andb_true_r, ?andb_true_iff, ?existsb_tag;
    intuition (try discriminate; auto).
Qed.

(** C9, as the code has it: for a title filter shorter than 10 characters
    that holds no syntax character of regular expressions, [find] returns
    exactly the stored records, timestamps removed, whose title contains
    the filter with letter case ignored, whose tags include every tag that
    the query asks for, and that meet the remaining properties of the
    query; for a filter of 10 characters or more the title is no criterion
    at all and [find] returns every stored record that meets the two other
    conditions. *)
Theorem find_titel_filter `{Platform} (q : Query) (t : string) (db : Collection) :
  q_titel q = Some (QString t) ->
  ((String.length t < 10)%nat ->
   (forall c, In c (list_ascii_of_string t) -> isSyntaxCharacter c = false) ->
   exists autos,
     find (Some q) db = Found autos
     /\ forall r, In r autos <->
          exists stored, In stored db /\ r = deleteTimestamps stored
                         /\ Spec.containsIgnoringCase t (titel stored)
                         /\ Spec.hasRequestedTags q stored
                         /\ matchesCriteria (Spec.remainingCriteria q) stored
                            = true)
  /\ ((10 <= String.length t)%nat ->
      exists autos,
        find (Some q) db = Found autos
        /\ forall r, In r autos <->
             exists stored, In stored db /\ r = deleteTimestamps stored
                            /\ Spec.hasRequestedTags q stored
                            /\ matchesCriteria (Spec.remainingCriteria q) stored
                               = true).
Proof.
  intros Ht.
  assert (Hentries : noEntries q = false) by (unfold noEntries; rewrite Ht; reflexivity).
  split.
  - intros Hlen Hlit.
    destruct (newRegExp_literal t Hlit) as [re Hre].
    unfold find. rewrite Hentries, Ht. unfold titelCriterion.
    apply Nat.ltb_lt in Hlen. rewrite Hlen, Hre. simpl.
    eexists. split; [reflexivity|].
    intros r. rewrite in_map_iff. split.
    + intros (stored & <- & Hin). apply filter_In in Hin as [Hin Hm].
      assert (Htest : JS.test re (titel stored) = true
                      /\ matchesQuery (Spec.otherCriteria q) stored = true).
      { unfold matchesQuery in *. simpl in *.
        apply andb_prop in Hm as [Hm Hrest]. apply andb_prop in Hm as [Htest Htags].
        split; [exact Htest | rewrite Htags, Hrest; reflexivity]. }
      destruct Htest as [Htest Hother].
      apply otherCriteria_spec in Hother as [Htags Hrest].
      exists stored. split; [exact Hin|]. split; [reflexivity|].
      split; [|split; assumption].
      apply (searchFrom_literal t re Hlit Hre (titel stored) true). exact Htest.
    + intros (stored & Hin & -> & Hsub & Htags & Hrest).
      exists stored. split; [reflexivity|]. apply filter_In. split; [exact Hin|].
      assert (Hother : matchesQuery (Spec.otherCriteria q) stored = true)
        by (apply otherCriteria_spec; split; assumption).
      apply (searchFrom_literal t re Hlit Hre (titel stored) true) in Hsub.
      unfold matchesQuery in *. simpl in *. unfold test. rewrite Hsub.
      exact Hother.
  - intros Hlen. unfold find. rewrite Hentries, Ht. unfold titelCriterion.
    apply Nat.ltb_ge in Hlen. rewrite Hlen.
    eexists. split; [reflexivity|].
    intros r. rewrite in_map_iff. split.
    + intros (stored & <- & Hin). apply filter_In in Hin as [Hin Hm].
      apply (otherCriteria_spec q stored) in Hm as [Htags Hrest].
      exists stored. split; [exact Hin|]. split; [reflexivity|].
      split; assumption.
    + intros (stored & Hin & -> & Htags & Hrest).
      exists stored. split; [reflexivity|]. apply filter_In. split; [exact Hin|].
      apply (otherCriteria_spec q stored). split; assumption.
Qed.

End TitelFilter.

Lemma find_titel_filter_witness :
  (exists autos,
     BuchService.find (H := Testdaten.testPlatform)
       (Some (Testdaten.titelQuery "LPH")) Testdaten.testdaten
     = BuchService.Found autos
     /\ (In (BuchService.deleteTimestamps Testdaten.alpha) autos <->
         exists stored,
           In stored Testdaten.testdaten
           /\ BuchService.deleteTimestamps Testdaten.alpha
              = BuchService.deleteTimestamps stored
           /\ Spec.containsIgnoringCase "LPH" (titel stored)
           /\ Spec.hasRequestedTags (Testdaten.titelQuery "LPH") stored
           /\ matchesCriteria (Platform := Testdaten.testPlatform)
                (Spec.remainingCriteria (Testdaten.titelQuery "LPH")) stored
              = true))
  /\ (exists autos,
        BuchService.find (H := Testdaten.testPlatform)
          (Some (Testdaten.titelQuery "Alpha-Beta-Gamma")) Testdaten.testdaten
        = BuchService.Found autos
        /\ (In (BuchService.deleteTimestamps Testdaten.beta) autos <->
            exists stored,
              In stored Testdaten.testdaten
              /\ BuchService.deleteTimestamps Testdaten.beta
                 = BuchService.deleteTimestamps stored
              /\ Spec.hasRequestedTags (Testdaten.titelQuery "Alpha-Beta-Gamma")
                   stored
              /\ matchesCriteria (Platform := Testdaten.testPlatform)
                   (Spec.remainingCriteria
                      (Testdaten.titelQuery "Alpha-Beta-Gamma")) stored
                 = true)).
Proof.
  split.
  - destruct (find_titel_filter (H := Testdaten.testPlatform)
                (Testdaten.titelQuery "LPH") "LPH" Testdaten.testdaten eq_refl)
      as [Hshort _].
    destruct Hshort as (autos & Hfind & Hiff).
    + simpl. lia.
    + intros c Hin. simpl in Hin.
      repeat (destruct Hin as [<- | Hin]; [reflexivity|]). destruct Hin.
    + exists autos. split; [exact Hfind | apply Hiff].
  - destruct (find_titel_filter (H := Testdaten.testPlatform)
                (Testdaten.titelQuery "Alpha-Beta-Gamma") "Alpha-Beta-Gamma"
                Testdaten.testdaten eq_refl) as [_ Hlong].
    destruct Hlong as (autos & Hfind & Hiff); [simpl; lia|].
    exists autos. split; [exact Hfind | apply Hiff].
Defined.

(** The filter [^b] is contained in the title [a^b], yet [find] does not
    return that record; the filter [0123456789] is contained in no title,
    yet [find] returns every record. *)
Lemma find_titel_filter_counterexample :
  (Spec.containsIgnoringCase "^b" (titel Testdaten.caretBuch)
   /\ BuchService.find (H := Testdaten.testPlatform)
        (Some (Testdaten.titelQuery "^b")) [Testdaten.caretBuch]
      = BuchService.Found [])
  /\ ((forall b, In b Testdaten.testdaten ->
                 ~ Spec.containsIgnoringCase "0123456789" (titel b))
      /\ BuchService.find (H := Testdaten.testPlatform)
           (Some (Testdaten.titelQuery "0123456789")) Testdaten.testdaten
         = BuchService.Found [BuchService.deleteTimestamps Testdaten.alpha;
                              BuchService.deleteTimestamps Testdaten.beta]).
Proof.
  split; split.
  - exists "a", "^b", EmptyString. split; [reflexivity|].
    repeat constructor.
  - reflexivity.
  - intros b [<- | [<- | []]] (before & part & after & Heq & Hpart);
      apply equalIgnoringCase_length in Hpart;
      apply (f_equal String.length) in Heq;
      rewrite !string_length_append in Heq; simpl in Heq, Hpart; lia.
  - reflexivity.
Qed.

(* ================================================================= *)
(** ** The GraphQL update mutation *)

Section GraphQL.

Import JS BuchModel BuchService Resolvers.

Lemma update_version_invalid_from_guard `{Platform}
    (others : Collection -> Collection) (auto : BuchData)
    (versionStr : option string) (db : Collection) (token : option string) :
  fst (updateRacing others auto versionStr db) = inl (VersionInvalid token) ->
  validateVersion versionStr = inl (VersionInvalid token).
Proof.
  unfold updateRacing.
  destruct (validateUpdate auto versionStr db) as [err|] eqn:Hval.
  - simpl. intros [= ->]. revert Hval. unfold validateUpdate.
    destruct (validateVersion versionStr) as [e|version]; [congruence|].
    destruct (validateBuch auto); [discriminate|]. cbv zeta.
    assert (Hcur : match _id auto with
                   | Some id => checkIdAndVersion id version db
                   | None => Some (BuchNotExists None)
                   end <> Some (VersionInvalid token)).
    { destruct (_id auto) as [id|]; [|discriminate].
      unfold checkIdAndVersion.
      destruct (BuchModel.findById id db) as [stored|]; [|discriminate].
      destruct (version <? nullish (__v stored) 0); discriminate. }
    unfold checkTitelExists.
    destruct (findOneTitel (titel auto) db) as [id|];
      [|intros E; exfalso; exact (Hcur E)].
    simpl. destruct (negb (optEqb id (_id auto)));
      [discriminate | intros E; exfalso; exact (Hcur E)].
  - destruct (match _id auto with
              | Some id => findByIdAndUpdate id auto (others db)
              | None => (None, others db)
              end) as [[u|] db2]; simpl; discriminate.
Qed.

(** C10: the resolver hands [update] the decimal text of the candidate's
    own [__v], or of 0 when the candidate has none.  The guard reads that
    text back as the same number, so the mutation never ends in
    [VersionInvalid]; and a valid candidate without version whose stored
    record has version 0 is updated: the mutation returns 1, and the
    collection then holds, in the place of the stored record, the
    candidate's fields under the same id with version 1. *)
Theorem updateBuch_version_token `{Platform} (auto : BuchData) (db : Collection) :
  updateBuch auto db
  = update auto (Some (toString (nullish (__v auto) 0))) db
  /\ (__v auto = None -> toString (nullish (__v auto) 0) = "0")
  /\ validateVersion (Some (toString (nullish (__v auto) 0)))
     = inr (nullish (__v auto) 0)
  /\ (forall token, fst (updateBuch auto db) <> inl (VersionInvalid token))
  /\ (forall id stored,
      __v auto = None ->
      _id auto = Some id ->
      validateBuch auto = None ->
      (forall b, In b db -> titel b = titel auto -> _id b = _id auto) ->
      BuchModel.findById id db = Some stored ->
      nullish (__v stored) 0 = 0 ->
      let updated := withStoreFields auto id 1 (createdAt stored) now in
      updateBuch auto db = (inr 1, replaceFirst id updated db)
      /\ BuchModel.findById id (snd (updateBuch auto db)) = Some updated
      /\ _id updated = Some id /\ __v updated = Some 1
      /\ Rest.sameContent auto updated).
Proof.
  assert (Hguard : validateVersion (Some (toString (nullish (__v auto) 0)))
                   = inr (nullish (__v auto) 0)).
  { unfold validateVersion. rewrite parseInt_toString. reflexivity. }
  split; [reflexivity|]. split; [intros ->; reflexivity|].
  split; [exact Hguard|]. split.
  - intros token Hinv. unfold updateBuch, update in Hinv.
    apply update_version_invalid_from_guard in Hinv.
    rewrite Hguard in Hinv. discriminate.
  - intros id stored Hnov Hid Hvalid Hown Hs Hv0 updated.
    assert (Hok : validateUpdate auto (Some (toString (nullish (__v auto) 0))) db
                  = None).
    { rewrite (validateUpdate_reaches_currency auto _ db id
                 (nullish (__v auto) 0) Hguard Hvalid Hown Hid).
      unfold checkIdAndVersion. rewrite Hs, Hv0, Hnov. reflexivity. }
    assert (Hup : updateBuch auto db = (inr 1, replaceFirst id updated db)).
    { unfold updateBuch, update.
      rewrite (updateRacing_write _ auto _ db id Hok Hid).
      rewrite Hs. cbv zeta. rewrite Hv0. reflexivity. }
    split; [exact Hup|]. rewrite Hup. split; [|split; [|split]].
    + apply findById_replaceFirst; [reflexivity | congruence].
    + reflexivity.
    + reflexivity.
    + unfold Rest.sameContent. repeat split.
Qed.

End GraphQL.

Lemma updateBuch_version_token_witness :
  __v Testdaten.alphaNeu = None
  /\ validateBuch (Platform := Testdaten.testPlatform) Testdaten.alphaNeu = None
  /\ BuchModel.findById Testdaten.alphaId Testdaten.testdaten
     = Some Testdaten.alpha
  /\ JS.nullish (__v Testdaten.alpha) 0 = 0
  /\ fst (Resolvers.updateBuch (H := Testdaten.testPlatform)
            Testdaten.alphaNeu Testdaten.testdaten) = inr 1
  /\ option_map __v
       (BuchModel.findById Testdaten.alphaId
          (snd (Resolvers.updateBuch (H := Testdaten.testPlatform)
                  Testdaten.alphaNeu Testdaten.testdaten)))
     = Some (Some 1)
  /\ option_map rating
       (BuchModel.findById Testdaten.alphaId
          (snd (Resolvers.updateBuch (H := Testdaten.testPlatform)
                  Testdaten.alphaNeu Testdaten.testdaten)))
     = Some (rating Testdaten.alphaNeu).
Proof.
  repeat (split; [reflexivity|]).
  destruct (updateBuch_version_token (H := Testdaten.testPlatform)
              Testdaten.alphaNeu Testdaten.testdaten) as (_ & _ & _ & _ & Hdone).
  destruct (Hdone Testdaten.alphaId Testdaten.alpha eq_refl eq_refl eq_refl
              alphaNeu_keeps_own_titel eq_refl eq_refl)
    as (_ & Hfound & _).
  rewrite Hfound. reflexivity.
Defined.

(* ================================================================= *)
(** ** The scenario of the test data *)

Example parseInt_examples :
  JS.parseInt "42" = JS.Int 42 /\ JS.parseInt "  -17abc" = JS.Int (-17)
  /\ JS.parseInt "abc" = JS.NaN /\ JS.parseInt "+" = JS.NaN
  /\ JS.parseInt "-0" = JS.Int 0.
Proof. repeat split. Qed.

Example toString_examples :
  JS.toString 0 = "0" /\ JS.toString (-1203) = "-1203"
  /\ JS.toString 1000 = "1000".
Proof. repeat split. Qed.

Example regexp_examples :
  option_map (fun r => JS.test r "Alpha") (JS.newRegExp "LPH") = Some true
  /\ option_map (fun r => JS.test r "Alpha") (JS.newRegExp "^l") = Some false
  /\ option_map (fun r => JS.test r "Alpha") (JS.newRegExp "^aL") = Some true
  /\ option_map (fun r => JS.test r "Alpha") (JS.newRegExp "a^") = Some false
  /\ JS.newRegExp "a*" = None.
Proof. repeat split. Qed.

(** The capital and the small a-umlaut are the same letter; the wild card
    stands for any character but a line terminator; a quantifier at the
    beginning and an open group are refused. *)
Example regexp_latin1_examples :
  option_map (fun r => JS.test r (String (ascii_of_nat 196) "rger"))
    (JS.newRegExp (String (ascii_of_nat 228) EmptyString)) = Some true
  /\ option_map (fun r => JS.test r "Dr. No") (JS.newRegExp "Dr.") = Some true
  /\ option_map (fun r => JS.test r "Dr") (JS.newRegExp "Dr.") = Some false
  /\ JS.refused "(" = true /\ JS.refused "*a" = true
  /\ JS.refused "[(]" = false /\ JS.refused "(a)" = false.
Proof. repeat split. Qed.

(** Update with the version read, then once more with the same version. *)
Example update_twice_with_version_0 :
  let first := BuchService.update (H := Testdaten.testPlatform)
                 Testdaten.alphaNeuV0 (Some "0") Testdaten.testdaten in
  fst first = inr 1
  /\ fst (BuchService.update (H := Testdaten.testPlatform)
            Testdaten.alphaNeuV0 (Some "0") (snd first))
     = inl (VersionOutdated Testdaten.alphaId 0).
Proof. split; reflexivity. Qed.

(* ================================================================= *)
(** ** The service beyond the pipeline: listing, failures, invariants *)

Section ServiceFacts.

Import JS BuchModel BuchService Invariants.

Lemma insertByTitel_perm (b : BuchData) (l : list BuchData) :
  Permutation (insertByTitel b l) (b :: l).
Proof.
  induction l as [|c rest IH]; simpl; [apply Permutation_refl|].
  destruct (String.leb (titel b) (titel c)); [apply Permutation_refl|].
  eapply Permutation_trans; [apply perm_skip; exact IH | apply perm_swap].
Qed.

Lemma findAllSorted_perm (db : Collection) : Permutation (findAllSorted db) db.
Proof.
  unfold findAllSorted. induction db as [|b rest IH]; simpl; [constructor|].
  eapply Permutation_trans; [apply insertByTitel_perm | apply perm_skip; exact IH].
Qed.

Lemma insertByTitel_sorted (b : BuchData) (l : list BuchData) :
  Sorted titelLe l -> Sorted titelLe (insertByTitel b l).
Proof.
  induction 1 as [|c rest Hs IH Hhd]; simpl.
  - constructor; constructor.
  - destruct (String.leb (titel b) (titel c)) eqn:Hle.
    + constructor; [constructor; assumption | constructor; exact Hle].
    + constructor; [exact IH|].
      assert (Hcb : titelLe c b).
      { destruct (String.leb_total (titel b) (titel c)) as [E|E];
          [congruence | exact E]. }
      destruct rest as [|d rest']; simpl.
      * constructor. exact Hcb.
      * destruct (String.leb (titel b) (titel d)); constructor;
          [exact Hcb | inversion Hhd; assumption].
Qed.

Lemma findAllSorted_sorted (db : Collection) : Sorted titelLe (findAllSorted db).
Proof.
  unfold findAllSorted. induction db as [|b rest IH]; simpl; [constructor|].
  apply insertByTitel_sorted. exact IH.
Qed.

Lemma Sorted_map_deleteTimestamps (l : list BuchData) :
  Sorted titelLe l -> Sorted titelLe (map deleteTimestamps l).
Proof.
  induction 1 as [|c rest Hs IH Hhd]; simpl; constructor; [exact IH|].
  destruct Hhd; simpl; constructor. assumption.
Qed.

(** Without a query, or with a query object without properties, [find]
    returns every stored record once, timestamps removed, in ascending
    order of the titles. *)
Theorem find_all_sorted_by_titel `{Platform} (query : option Query)
    (db : Collection) :
  (query = None \/ exists q, query = Some q /\ noEntries q = true) ->
  exists autos,
    find query db = Found autos
    /\ Sorted titelLe autos
    /\ Permutation autos (map deleteTimestamps db).
Proof.
  intros Hq. exists (map deleteTimestamps (findAllSorted db)). split.
  - destruct Hq as [-> | (q & -> & Hq)]; [reflexivity|].
    unfold find. rewrite Hq. reflexivity.
  - split.
    + apply Sorted_map_deleteTimestamps, findAllSorted_sorted.
    + apply Permutation_map, findAllSorted_perm.
Qed.

Lemma existsTitel_false (t : string) (db : Collection) :
  existsTitel t db = false -> ~ In t (map titel db).
Proof.
  unfold existsTitel. intros Hex Hin. apply in_map_iff in Hin as (b & Hb & Hin).
  assert (existsb (fun b0 => String.eqb (titel b0) t) db = true).
  { apply existsb_exists. exists b. split; [exact Hin | apply String.eqb_eq; exact Hb]. }
  congruence.
Qed.

Lemma existsIsbn_false (i : string) (db : Collection) :
  existsIsbn i db = false -> ~ In i (map isbn db).
Proof.
  unfold existsIsbn. intros Hex Hin. apply in_map_iff in Hin as (b & Hb & Hin).
  assert (existsb (fun b0 => String.eqb (isbn b0) i) db = true).
  { apply existsb_exists. exists b. split; [exact Hin | apply String.eqb_eq; exact Hb]. }
  congruence.
Qed.

Lemma NoDup_snoc {A : Type} (l : list A) (x : A) :
  NoDup l -> ~ In x l -> NoDup (l ++ [x]).
Proof.
  intros Hnd Hx. apply NoDup_rev in Hnd.
  rewrite <- (rev_involutive (l ++ [x])). apply NoDup_rev.
  rewrite rev_app_distr. simpl. constructor; [|exact Hnd].
  intros Hin. apply Hx. apply in_rev. exact Hin.
Qed.

(** [create] keeps titles and ISBNs unique: when no two stored records
    share a title and no two share an ISBN, the same holds for the
    collection that [create] leaves, whatever it returns. *)
Theorem create_keeps_titel_and_isbn_unique `{Platform} (mail : MailEnv)
    (auto : BuchData) (db : Collection) :
  uniqueTitel db -> uniqueIsbn db ->
  uniqueTitel (snd (fst (create mail auto db)))
  /\ uniqueIsbn (snd (fst (create mail auto db))).
Proof.
  intros Ht Hi. unfold create, validateCreate.
  destruct (validateBuch auto); [split; assumption|].
  destruct (existsTitel (titel auto) db) eqn:Het; [split; assumption|].
  destruct (existsIsbn (isbn auto) db) eqn:Hei; [split; assumption|].
  simpl. unfold uniqueTitel, uniqueIsbn. rewrite !map_app. simpl. split.
  - apply NoDup_snoc; [exact Ht | apply existsTitel_false; exact Het].
  - apply NoDup_snoc; [exact Hi | apply existsIsbn_false; exact Hei].
Qed.

(** A [create] or an [update] that fails leaves the collection as it was,
    and a failed [create] sends no mail and logs nothing. *)
Theorem failure_leaves_collection `{Platform} (db : Collection)
    (auto : BuchData) (err : BuchServiceError) :
  (forall mail, fst (fst (create mail auto db)) = inl err ->
                create mail auto db = (inl err, db, []))
  /\ (forall versionStr, fst (update auto versionStr db) = inl err ->
                         update auto versionStr db = (inl err, db)).
Proof.
  split.
  - intros mail. unfold create.
    destruct (validateCreate auto db) as [e|]; simpl.
    + intros [= ->]. reflexivity.
    + discriminate.
  - intros versionStr. unfold update, updateRacing.
    destruct (validateUpdate auto versionStr db) as [e|]; simpl.
    + intros [= ->]. reflexivity.
    + destruct (_id auto) as [id|]; simpl.
      * unfold findByIdAndUpdate.
        destruct (BuchModel.findById id db) as [stored|]; simpl.
        -- discriminate.
        -- intros [= <-]. reflexivity.
      * intros [= <-]. reflexivity.
Qed.

End ServiceFacts.

Section UpdateFacts.

Import JS BuchModel BuchService Invariants.

Lemma validateUpdate_titel_own `{Platform} (auto : BuchData)
    (versionStr : option string) (db : Collection) :
  validateUpdate auto versionStr db = None ->
  forall i, findOneTitel (titel auto) db = Some i -> i = _id auto.
Proof.
  unfold validateUpdate, checkTitelExists.
  destruct (validateVersion versionStr) as [e|version]; [discriminate|].
  destruct (validateBuch auto); [discriminate|]. cbv zeta.
  intros Hok i Hi. rewrite Hi in Hok. simpl in Hok.
  destruct (optEqb i (_id auto)) eqn:E; [|discriminate Hok].
  apply optEqb_eq. exact E.
Qed.

(** The failures of [create] are [BuchInvalid] with the report of the
    validator, [TitelExists] with the candidate's title, or [IsbnExists]
    with the candidate's ISBN.  The failures of [update] are
    [VersionInvalid] with the token, [BuchInvalid] with the report,
    [TitelExists] with the id of a stored record that has the candidate's
    title and another id, [BuchNotExists] with the candidate's id, or
    [VersionOutdated] with the candidate's id and the version read from the
    token; [update] never answers [IsbnExists]. *)
Theorem failure_kinds `{Platform} (auto : BuchData) (db : Collection)
    (err : BuchServiceError) :
  (forall mail, fst (fst (create mail auto db)) = inl err ->
     (exists msg, validateBuch auto = Some msg /\ err = BuchInvalid msg)
     \/ err = TitelExists (titel auto) None /\ In (titel auto) (map titel db)
     \/ err = IsbnExists (isbn auto) None /\ In (isbn auto) (map isbn db))
  /\ (forall others versionStr,
      fst (updateRacing others auto versionStr db) = inl err ->
      err = VersionInvalid versionStr
      \/ (exists msg, validateBuch auto = Some msg /\ err = BuchInvalid msg)
      \/ (exists b, In b db /\ titel b = titel auto /\ _id b <> _id auto
                    /\ err = TitelExists (titel auto) (_id b))
      \/ err = BuchNotExists (_id auto)
      \/ (exists id version,
            _id auto = Some id /\ validateVersion versionStr = inr version
            /\ err = VersionOutdated id version)).
Proof.
  split.
  - intros mail. unfold create, validateCreate.
    destruct (validateBuch auto) as [msg|]; simpl.
    { intros [= <-]. left. exists msg. split; reflexivity. }
    destruct (existsTitel (titel auto) db) eqn:Het; simpl.
    { intros [= <-]. right. left. split; [reflexivity|].
      apply existsb_exists in Het as (b & Hin & Hb). apply String.eqb_eq in Hb.
      apply in_map_iff. exists b. split; assumption. }
    destruct (existsIsbn (isbn auto) db) eqn:Hei; simpl; [|discriminate].
    intros [= <-]. right. right. split; [reflexivity|].
    apply existsb_exists in Hei as (b & Hin & Hb). apply String.eqb_eq in Hb.
    apply in_map_iff. exists b. split; assumption.
  - intros others versionStr. unfold updateRacing.
    destruct (validateUpdate auto versionStr db) as [e|] eqn:Hval; simpl.
    + intros [= ->]. revert Hval. unfold validateUpdate.
      destruct (validateVersion versionStr) as [e|version] eqn:Hv.
      { intros [= <-]. left. revert Hv. unfold validateVersion.
        destruct versionStr as [s|]; [|congruence].
        destruct (parseInt s); congruence. }
      destruct (validateBuch auto) as [msg|].
      { intros [= <-]. right. left. exists msg. split; reflexivity. }
      cbv zeta.
      assert (Hcur : match _id auto with
                     | Some id => checkIdAndVersion id version db
                     | None => Some (BuchNotExists None)
                     end = Some err ->
                     err = BuchNotExists (_id auto)
                     \/ exists id version0,
                          _id auto = Some id
                          /\ @inr BuchServiceError Z version = inr version0
                          /\ err = VersionOutdated id version0).
      { destruct (_id auto) as [id|]; [|intros [= <-]; left; reflexivity].
        unfold checkIdAndVersion.
        destruct (BuchModel.findById id db) as [stored|];
          [|intros [= <-]; left; reflexivity].
        destruct (version <? nullish (__v stored) 0); [|discriminate].
        intros [= <-]. right. exists id, version. repeat split. }
      unfold checkTitelExists.
      destruct (findOneTitel (titel auto) db) as [i|] eqn:Hone.
      * simpl. destruct (optEqb i (_id auto)) eqn:Heq; simpl.
        -- intros E. right. right. right. exact (Hcur E).
        -- intros [= <-]. right. right. left.
           apply findOneTitel_some in Hone as (b & Hin & Ht & Hid).
           exists b. repeat split; try assumption.
           ++ intros Hsame. rewrite Hid in Hsame.
              apply optEqb_eq in Hsame. congruence.
           ++ rewrite Hid. reflexivity.
      * intros E. right. right. right. exact (Hcur E).
    + destruct (_id auto) as [id|] eqn:Hid; simpl.
      * unfold findByIdAndUpdate.
        destruct (BuchModel.findById id (others db)); simpl; [discriminate|].
        intros [= <-]. right. right. right. left. reflexivity.
      * intros [= <-]. right. right. right. left. reflexivity.
Qed.

Lemma update_success_stored `{Platform} (auto : BuchData)
    (versionStr : option string) (db db' : Collection) (newVersion : Z) :
  update auto versionStr db = (inr newVersion, db') ->
  exists id stored,
    _id auto = Some id
    /\ BuchModel.findById id db = Some stored
    /\ newVersion = nullish (__v stored) 0 + 1
    /\ db' = replaceFirst id
               (withStoreFields auto id newVersion (createdAt stored) now) db.
Proof.
  unfold update. intros Hup.
  destruct (validateUpdate auto versionStr db) as [e|] eqn:Hval.
  { unfold updateRacing in Hup. rewrite Hval in Hup. discriminate. }
  destruct (validateUpdate_ok_id auto versionStr db Hval)
    as (id & version & stored & Hid & _ & Hs & _).
  rewrite (updateRacing_write _ auto versionStr db id Hval Hid) in Hup.
  rewrite Hs in Hup. cbv zeta in Hup. injection Hup as <- <-.
  exists id, stored. repeat split; assumption.
Qed.

(** Two writers that start from the same version: once an [update] has
    brought a record to a new version, a later [update] of the same id that
    presents any version below the new one is refused with
    [VersionOutdated] and changes nothing. *)
Theorem second_update_outdated `{Platform} (auto1 auto2 : BuchData)
    (v1 v2 : option string) (db db' : Collection) (newVersion version2 : Z) :
  update auto1 v1 db = (inr newVersion, db') ->
  _id auto2 = _id auto1 ->
  validateVersion v2 = inr version2 ->
  version2 < newVersion ->
  validateBuch auto2 = None ->
  (forall b, In b db' -> titel b = titel auto2 -> _id b = _id auto2) ->
  exists id, _id auto1 = Some id
             /\ update auto2 v2 db' = (inl (VersionOutdated id version2), db').
Proof.
  intros Hup Hsame Hv2 Hlt Hvalid Hown.
  destruct (update_success_stored _ _ _ _ _ Hup)
    as (id & stored & Hid & Hs & Hnew & Hdb').
  exists id. split; [exact Hid|].
  assert (Hfound : BuchModel.findById id db'
                   = Some (withStoreFields auto1 id newVersion (createdAt stored) now)).
  { rewrite Hdb'. apply findById_replaceFirst; [reflexivity | congruence]. }
  rewrite Hid in Hsame.
  unfold update, updateRacing.
  rewrite (validateUpdate_reaches_currency auto2 v2 db' id version2
             Hv2 Hvalid Hown Hsame).
  unfold checkIdAndVersion. rewrite Hfound. simpl.
  apply Z.ltb_lt in Hlt. rewrite Hlt. reflexivity.
Qed.

End UpdateFacts.

Section KeyFacts.

Import JS BuchModel BuchService Invariants.

Lemma replaceFirst_split (id : string) (db : Collection) (b : BuchData) :
  BuchModel.findById id db = Some b ->
  exists before after,
    db = (before ++ b :: after)%list
    /\ (forall doc, replaceFirst id doc db = (before ++ doc :: after)%list)
    /\ (forall c, In c before -> _id c <> Some id).
Proof.
  unfold BuchModel.findById.
  induction db as [|c rest IH]; simpl; intros E; [discriminate|].
  destruct (hasId id c) eqn:Hc.
  - injection E as <-. exists [], rest. repeat split. intros ? [].
  - destruct (IH E) as (before & after & -> & Hrep & Hpre).
    exists (c :: before), after. simpl. repeat split.
    + intros doc. rewrite Hrep. reflexivity.
    + intros d [<-|Hin]; [|exact (Hpre d Hin)].
      intros Hid. apply hasId_true in Hid. congruence.
Qed.

Lemma NoDup_map_eq {A B : Type} (f : A -> B) (l : list A) :
  NoDup (map f l) -> forall a b, In a l -> In b l -> f a = f b -> a = b.
Proof.
  induction l as [|x l IH]; simpl; intros Hnd a b Ha Hb Hf; [destruct Ha|].
  inversion Hnd as [|? ? Hx Hnd']; subst.
  destruct Ha as [<-|Ha], Hb as [<-|Hb].
  - reflexivity.
  - exfalso. apply Hx. rewrite Hf. apply in_map. exact Hb.
  - exfalso. apply Hx. rewrite <- Hf. apply in_map. exact Ha.
  - apply IH; assumption.
Qed.

Lemma findOneTitel_finds (t : string) (db : Collection) (b : BuchData) :
  In b db -> titel b = t ->
  exists b0, In b0 db /\ titel b0 = t /\ findOneTitel t db = Some (_id b0).
Proof.
  intros Hin Ht. unfold findOneTitel.
  destruct (List.find (fun c => String.eqb (titel c) t) db) as [b0|] eqn:E.
  - apply find_some in E as [Hin0 Ht0]. apply String.eqb_eq in Ht0.
    exists b0. repeat split; assumption.
  - pose proof (find_none _ _ E b Hin) as Hf. simpl in Hf.
    apply String.eqb_neq in Hf. contradiction.
Qed.

Lemma findById_app_skip (i : string) (before after : Collection) (b : BuchData) :
  _id b <> Some i ->
  BuchModel.findById i (before ++ b :: after)%list
  = BuchModel.findById i (before ++ after)%list.
Proof.
  intros Hb. unfold BuchModel.findById.
  induction before as [|c before IH]; simpl.
  - destruct (hasId i b) eqn:E; [|reflexivity].
    apply hasId_true in E. contradiction.
  - destruct (hasId i c); [reflexivity | exact IH].
Qed.

Lemma update_cases `{Platform} (auto : BuchData) (versionStr : option string)
    (db : Collection) :
  (exists err, update auto versionStr db = (inl err, db))
  \/ (exists id stored,
        validateUpdate auto versionStr db = None
        /\ _id auto = Some id
        /\ BuchModel.findById id db = Some stored
        /\ update auto versionStr db
           = (inr (nullish (__v stored) 0 + 1),
              replaceFirst id
                (withStoreFields auto id (nullish (__v stored) 0 + 1)
                                 (createdAt stored) now) db)).
Proof.
  unfold update.
  destruct (validateUpdate auto versionStr db) as [e|] eqn:Hval.
  - left. exists e. unfold updateRacing. rewrite Hval. reflexivity.
  - right. destruct (validateUpdate_ok_id auto versionStr db Hval)
      as (id & version & stored & Hid & _ & Hs & _).
    exists id, stored. repeat split; try assumption.
    rewrite (updateRacing_write _ auto versionStr db id Hval Hid).
    rewrite Hs. reflexivity.
Qed.

(** [update] keeps the key and the titles unique: when the ids of the
    collection are unique and no two records share a title, both hold
    again for the collection that [update] leaves, whatever it returns. *)
Theorem update_keeps_ids_and_titel_unique `{Platform} (auto : BuchData)
    (versionStr : option string) (db : Collection) :
  uniqueIds db -> uniqueTitel db ->
  uniqueIds (snd (update auto versionStr db))
  /\ uniqueTitel (snd (update auto versionStr db)).
Proof.
  intros [Hids Hsome] Htitel.
  destruct (update_cases auto versionStr db)
    as [(err & ->) | (id & stored & Hval & Hid & Hs & ->)];
    [simpl; split; [split|]; assumption|].
  simpl.
  destruct (replaceFirst_split id db stored Hs)
    as (before & after & Hdb & Hrep & Hpre).
  rewrite Hrep.
  pose proof (findById_some _ _ _ Hs) as [_ Hsid].
  unfold uniqueIds, uniqueTitel, ids in *.
  rewrite Hdb in Hids, Htitel. rewrite map_app in Hids, Htitel.
  simpl in Hids, Htitel. rewrite Hsid in Hids.
  rewrite !map_app. simpl. split; [split|].
  - exact Hids.
  - intros b Hin. apply in_app_or in Hin as [Hin | [<- | Hin]].
    + apply Hsome. rewrite Hdb. apply in_or_app. left. exact Hin.
    + discriminate.
    + apply Hsome. rewrite Hdb. apply in_or_app. right. right. exact Hin.
  - pose proof Htitel as Hfull.
    apply NoDup_remove in Htitel as [Hnd _].
    apply (Permutation_NoDup (Permutation_middle _ _ _)).
    constructor; [|exact Hnd].
    intros Hin. rewrite <- map_app in Hin.
    apply in_map_iff in Hin as (b & Hbt & Hb).
    assert (Hbdb : In b db).
    { rewrite Hdb. apply in_app_or in Hb as [Hb|Hb]; apply in_or_app;
        [left | right; right]; exact Hb. }
    destruct (findOneTitel_finds (titel auto) db b Hbdb Hbt)
      as (b0 & Hb0 & Ht0 & Hone).
    pose proof (validateUpdate_titel_own auto versionStr db Hval _ Hone) as Hown.
    assert (Heq : b0 = b).
    { apply (NoDup_map_eq titel db); [|assumption|assumption|congruence].
      rewrite Hdb, map_app. simpl. exact Hfull. }
    subst b0. rewrite Hid in Hown.
    apply in_app_or in Hb as [Hb|Hb].
    + exact (Hpre b Hb Hown).
    + apply NoDup_remove_2 in Hids. apply Hids.
      apply in_or_app. right. rewrite <- Hown. apply in_map. exact Hb.
Qed.

End KeyFacts.

Section DeleteFacts.

Import JS BuchModel BuchService Invariants.

Lemma delete_cases (id : string) (db : Collection) :
  (BuchModel.findById id db = None /\ delete id db = (false, db))
  \/ (exists b before after,
        BuchModel.findById id db = Some b
        /\ db = (before ++ b :: after)%list
        /\ (forall c, In c before -> _id c <> Some id)
        /\ delete id db = (true, (before ++ after)%list)).
Proof.
  unfold delete, findByIdAndDelete.
  destruct (BuchModel.findById id db) as [b|] eqn:Hf.
  - right. destruct (removeFirst_split id db b Hf)
      as (before & after & Hdb & Hrm & Hpre).
    exists b, before, after. rewrite Hrm. repeat split; assumption.
  - left. split; reflexivity.
Qed.

Lemma delete_gone (id : string) (db : Collection) :
  uniqueIds db ->
  BuchModel.findById id (snd (delete id db)) = None
  /\ (forall i, i <> id ->
      BuchModel.findById i (snd (delete id db)) = BuchModel.findById i db)
  /\ uniqueIds (snd (delete id db)).
Proof.
  intros [Hids Hsome].
  destruct (delete_cases id db)
    as [[Hnone ->] | (b & before & after & Hf & Hdb & Hpre & ->)]; simpl.
  - split; [exact Hnone|]. split; [reflexivity | split; assumption].
  - pose proof (findById_some _ _ _ Hf) as [_ Hbid].
    unfold uniqueIds, ids in *. rewrite Hdb, map_app in Hids. simpl in Hids.
    rewrite Hbid in Hids. split; [|split; [|split]].
    + apply findById_none. intros c Hin Hc.
      apply in_app_or in Hin as [Hin|Hin]; [exact (Hpre c Hin Hc)|].
      apply NoDup_remove_2 in Hids. apply Hids.
      apply in_or_app. right. rewrite <- Hc. apply in_map. exact Hin.
    + intros i Hi. rewrite Hdb. symmetry. apply findById_app_skip.
      rewrite Hbid. congruence.
    + rewrite map_app. apply NoDup_remove_1 in Hids. exact Hids.
    + intros c Hin. apply Hsome. rewrite Hdb.
      apply in_app_or in Hin as [Hin|Hin]; apply in_or_app;
        [left | right; right]; exact Hin.
Qed.

(** After [delete] the id is gone and stays gone: on a collection with
    unique ids, [findById] finds nothing under the deleted id, every other
    id is found as before, the ids are still unique, and deleting the same
    id again returns [false] and changes nothing. *)
Theorem delete_then_absent (id : string) (db : Collection) :
  uniqueIds db ->
  BuchService.findById id (snd (delete id db)) = None
  /\ (forall i, i <> id ->
      BuchService.findById i (snd (delete id db)) = BuchService.findById i db)
  /\ uniqueIds (snd (delete id db))
  /\ delete id (snd (delete id db)) = (false, snd (delete id db)).
Proof.
  intros Huniq0.
  destruct (delete_gone id db Huniq0) as (Hnone & Hframe & Huniq).
  split; [unfold BuchService.findById; rewrite Hnone; reflexivity|].
  split; [intros i Hi; unfold BuchService.findById; rewrite (Hframe i Hi); reflexivity|].
  split; [exact Huniq|].
  unfold delete at 1, findByIdAndDelete. rewrite Hnone. reflexivity.
Qed.

End DeleteFacts.

(* ================================================================= *)
(** ** The REST handler *)

Section RestVersionHeader.

Import JS BuchModel Invariants.

Lemma substring_prefix (s t : string) : substring 0 (String.length s) (s ++ t) = s.
Proof. induction s as [|c s IH]; simpl; [destruct t|rewrite IH]; reflexivity. Qed.

Lemma quoted_length (s : string) :
  String.length (BuchService.quoted s) = (String.length s + 2)%nat.
Proof.
  unfold BuchService.quoted. cbv zeta. rewrite !string_length_append. simpl. lia.
Qed.

Lemma slice_quoted (s : string) : Rest.slice_1_m1 (BuchService.quoted s) = s.
Proof.
  unfold Rest.slice_1_m1. rewrite quoted_length.
  replace (String.length s + 2 - 2)%nat with (String.length s) by lia.
  unfold BuchService.quoted. cbv zeta. simpl. apply substring_prefix.
Qed.

Lemma toString_not_empty (z : Z) : (1 <= String.length (toString z))%nat.
Proof.
  unfold toString. pose proof (decimal_not_nil (Z.to_N (Z.abs z))) as Hne.
  destruct (decimal (Z.to_N (Z.abs z))) as [|c ds]; [contradiction|].
  destruct (z <? 0); simpl; lia.
Qed.

Lemma getVersionHeader_quoted (req : Rest.Request) (z : Z) :
  Rest.ifMatch req = Some (BuchService.quoted (toString z)) ->
  Rest.getVersionHeader req = inr (toString z).
Proof.
  intros Him. unfold Rest.getVersionHeader. rewrite Him.
  pose proof (toString_not_empty z) as Hlen.
  assert (Hge : Nat.ltb (String.length (BuchService.quoted (toString z))) 3 = false)
    by (apply Nat.ltb_ge; rewrite quoted_length; lia).
  rewrite Hge, slice_quoted. reflexivity.
Qed.

Lemma toString_short (v : Z) :
  0 <= v < 100 -> (String.length (toString v) < 3)%nat.
Proof.
  intros Hv.
  assert (Hall : forallb (fun n => Nat.ltb (String.length (toString (Z.of_nat n))) 3)
                         (seq 0 100) = true) by (vm_compute; reflexivity).
  rewrite forallb_forall in Hall.
  specialize (Hall (Z.to_nat v)). rewrite Z2Nat.id in Hall by lia.
  apply Nat.ltb_lt, Hall, in_seq. lia.
Qed.

(** The version that the handler [findById] puts into the header [ETag] is
    the one that the handler [update] accepts in [If-Match]: for a stored
    record with version [v], a read without [If-None-Match] carries the
    quoted decimal text of [v]; a JSON update request for the same id that
    sends this text back, with a candidate that the validator accepts and
    whose title no other record has, is answered with 204 and the header
    [ETag] holding the decimal text of [v + 1]. *)
Theorem etag_read_then_update `{Platform} `{Shared} (get put : Rest.Request)
    (db : Collection) (id : string) (stored : BuchData) (v : Z) :
  Rest.paramsId get = Some id ->
  Rest.ifNoneMatch get = None ->
  BuchModel.findById id db = Some stored ->
  __v stored = Some v ->
  Rest.paramsId put = Some id ->
  Rest.notJson put = false ->
  Rest.ifMatch put = Some (BuchService.quoted (toString v)) ->
  validateBuch (Rest.setId (Some id) (Rest.reqBody put)) = None ->
  (forall b, In b db -> titel b = titel (Rest.reqBody put) -> _id b = Some id) ->
  Rest.headers (Rest.findById get db)
  = [("ETag", BuchService.quoted (toString v))]
  /\ exists db',
       Rest.update put db
       = (Rest.sendStatus Rest.NO_CONTENT
            (Rest.set "ETag" (toString (v + 1)) Rest.emptyResponse), db')
       /\ option_map __v (BuchModel.findById id db') = Some (Some (v + 1)).
Proof.
  intros Hget Hinm Hs Hv Hput Hjson Him Hvalid Hown. split.
  - unfold Rest.findById, BuchService.findById. rewrite Hget, Hs, Hinm. simpl.
    rewrite Hv. reflexivity.
  - unfold Rest.update. rewrite Hjson, (getVersionHeader_quoted put v Him), Hput.
    set (auto := Rest.setId (Some id) (Rest.reqBody put)).
    assert (Hguard : BuchService.validateVersion (Some (toString v)) = inr v).
    { unfold BuchService.validateVersion. rewrite parseInt_toString. reflexivity. }
    assert (Hok : BuchService.validateUpdate auto (Some (toString v)) db = None).
    { rewrite (validateUpdate_reaches_currency auto _ db id v Hguard Hvalid
                 Hown eq_refl).
      unfold BuchService.checkIdAndVersion. rewrite Hs, Hv. simpl.
      rewrite Z.ltb_irrefl. reflexivity. }
    unfold BuchService.update.
    rewrite (updateRacing_write _ auto _ db id Hok eq_refl).
    rewrite Hs, Hv. simpl. eexists. split; [reflexivity|].
    rewrite findById_replaceFirst; [reflexivity | reflexivity | congruence].
Qed.

(** The header [ETag] of a successful update is the bare decimal text of
    the new version, without quotes.  For a new version from 0 to 99, a
    JSON update request that sends this text back in [If-Match] is answered
    with 412 and the message about an invalid version number, and the
    collection is not touched. *)
Theorem update_etag_not_accepted_back `{Platform} `{Shared}
    (req next : Rest.Request) (db db' db2 : Collection) (res : Rest.Response) :
  Rest.update req db = (res, db') ->
  Rest.statusCode res = Some Rest.NO_CONTENT ->
  exists newVersion,
    Rest.headers res = [("ETag", toString newVersion)]
    /\ (0 <= newVersion < 100 ->
        Rest.notJson next = false ->
        Rest.ifMatch next = Some (toString newVersion) ->
        Rest.update next db2
        = (Rest.plainText Rest.PRECONDITION_FAILED
             ("Ungueltige Versionsnummer: " ++ toString newVersion), db2)).
Proof.
  unfold Rest.update at 1.
  destruct (Rest.notJson req); [intros [= <- <-]; discriminate|].
  destruct (Rest.getVersionHeader req) as [r|version] eqn:Hgv.
  { intros [= <- <-]. unfold Rest.getVersionHeader in Hgv.
    destruct (Rest.ifMatch req) as [h|]; [|injection Hgv as <-; discriminate].
    destruct (Nat.ltb (String.length h) 3); [|discriminate].
    injection Hgv as <-. discriminate. }
  destruct (BuchService.update _ _ db) as [[err|newVersion] d].
  { intros [= <- <-]. destruct err; discriminate. }
  intros [= <- <-] _. exists newVersion. split; [reflexivity|].
  intros Hrange Hjson Him. unfold Rest.update, Rest.getVersionHeader.
  rewrite Hjson, Him.
  pose proof (toString_short newVersion Hrange) as Hshort.
  apply Nat.ltb_lt in Hshort. rewrite Hshort. reflexivity.
Qed.

End RestVersionHeader.

Section RestHandlers.

Import JS BuchModel Invariants.

Lemma update_error_not_isbn `{Platform} (auto : BuchData)
    (versionStr : option string) (db db' : Collection) (err : BuchServiceError) :
  BuchService.update auto versionStr db = (inl err, db') ->
  db' = db /\ forall i j, err <> IsbnExists i j.
Proof.
  intros Hup.
  destruct (update_cases auto versionStr db)
    as [(e & He) | (id & stored & _ & _ & _ & Hok)];
    [|rewrite Hok in Hup; discriminate].
  rewrite He in Hup. injection Hup as <- <-. split; [reflexivity|].
  intros i j ->. revert He. unfold BuchService.update, BuchService.updateRacing.
  destruct (BuchService.validateUpdate auto versionStr db) as [e|] eqn:Hval.
  - intros [= ->]. revert Hval. unfold BuchService.validateUpdate.
    unfold BuchService.validateVersion.
    destruct versionStr as [s|]; [|discriminate].
    destruct (parseInt s) as [|version]; [discriminate|].
    destruct (validateBuch auto); [discriminate|]. cbv zeta.
    assert (Hcur : match _id auto with
                   | Some id => BuchService.checkIdAndVersion id version db
                   | None => Some (BuchNotExists None)
                   end <> Some (IsbnExists i j)).
    { destruct (_id auto) as [id|]; [|discriminate].
      unfold BuchService.checkIdAndVersion.
      destruct (BuchModel.findById id db) as [stored|]; [|discriminate].
      destruct (version <? nullish (__v stored) 0); discriminate. }
    unfold BuchService.checkTitelExists.
    destruct (findOneTitel (titel auto) db) as [id|]; [|exact Hcur].
    simpl. destruct (negb (BuchService.optEqb id (_id auto)));
      [discriminate | exact Hcur].
  - destruct (match _id auto with
              | Some id => findByIdAndUpdate id auto db
              | None => (None, db)
              end) as [[u|] db2]; simpl; discriminate.
Qed.

(** The handler [update] and the response.  Without the JSON content type
    it sets the status 406 but does not send the response, and leaves the
    collection alone.  With it, the response is always sent; it is 204, or
    the collection is unchanged and the status is 400, 412 or 428; and
    without the header [If-Match] it is 428 with the message that the
    version number is missing. *)
Theorem rest_update_response `{Platform} `{Shared} (req : Rest.Request)
    (db : Collection) :
  (Rest.notJson req = true ->
   Rest.update req db = (Rest.status Rest.NOT_ACCEPTABLE Rest.emptyResponse, db)
   /\ Rest.ended (fst (Rest.update req db)) = false)
  /\ (Rest.notJson req = false ->
      Rest.ended (fst (Rest.update req db)) = true
      /\ (Rest.statusCode (fst (Rest.update req db)) = Some Rest.NO_CONTENT
          \/ snd (Rest.update req db) = db
             /\ (Rest.statusCode (fst (Rest.update req db)) = Some Rest.BAD_REQUEST
                 \/ Rest.statusCode (fst (Rest.update req db))
                    = Some Rest.PRECONDITION_FAILED
                 \/ Rest.statusCode (fst (Rest.update req db))
                    = Some Rest.PRECONDITION_REQUIRED)))
  /\ (Rest.notJson req = false -> Rest.ifMatch req = None ->
      Rest.update req db
      = (Rest.plainText Rest.PRECONDITION_REQUIRED "Versionsnummer fehlt", db)).
Proof.
  split; [|split].
  - intros Hnj. unfold Rest.update. rewrite Hnj. split; reflexivity.
  - intros Hnj. unfold Rest.update. rewrite Hnj. unfold Rest.getVersionHeader.
    destruct (Rest.ifMatch req) as [h|]; simpl.
    2:{ split; [reflexivity|]. right. split; [reflexivity|]. right. right. reflexivity. }
    destruct (Nat.ltb (String.length h) 3); simpl.
    { split; [reflexivity|]. right. split; [reflexivity|]. right. left. reflexivity. }
    destruct (BuchService.update (Rest.setId (Rest.paramsId req) (Rest.reqBody req))
                (Some (Rest.slice_1_m1 h)) db) as [[err|v] db'] eqn:Hup; simpl.
    + destruct (update_error_not_isbn _ _ _ _ _ Hup) as [-> Hnot].
      destruct err; simpl;
        try (split; [reflexivity|]; right; split; [reflexivity|]; tauto).
      exfalso. exact (Hnot _ _ eq_refl).
    + split; [reflexivity | left; reflexivity].
  - intros Hnj Him. unfold Rest.update, Rest.getVersionHeader.
    rewrite Hnj, Him. reflexivity.
Qed.

(** The handler [create] and the response.  Without the JSON content type
    it answers 406 and does nothing else.  With it, a candidate that passes
    the checks of [validateCreate] is answered with 201 and the header
    [Location] made of the base URI and the new id; any other candidate is
    answered with 400, and the collection and the log stay as they are. *)
Theorem rest_create_response `{Platform} `{Shared} (mail : MailEnv)
    (req : Rest.Request) (db : Collection) :
  (Rest.notJson req = true ->
   Rest.create mail req db
   = (Rest.sendStatus Rest.NOT_ACCEPTABLE Rest.emptyResponse, db, []))
  /\ (Rest.notJson req = false ->
      BuchService.validateCreate (Rest.reqBody req) db = None ->
      fst (Rest.create mail req db)
      = (Rest.sendStatus Rest.CREATED
           (Rest.set "Location" (Rest.baseUri req ++ "/" ++ uuid db)
                     Rest.emptyResponse),
         snd (save (Rest.reqBody req) db)))
  /\ (Rest.notJson req = false ->
      BuchService.validateCreate (Rest.reqBody req) db <> None ->
      exists res,
        Rest.create mail req db = (res, db, [])
        /\ Rest.statusCode res = Some Rest.BAD_REQUEST
        /\ Rest.ended res = true).
Proof.
  split; [|split].
  - intros Hnj. unfold Rest.create. rewrite Hnj. reflexivity.
  - intros Hnj Hok. unfold Rest.create, BuchService.create.
    rewrite Hnj, Hok. reflexivity.
  - intros Hnj Hbad. unfold Rest.create, BuchService.create. rewrite Hnj.
    revert Hbad. unfold BuchService.validateCreate.
    destruct (validateBuch (Rest.reqBody req)) as [msg|].
    { intros _. eexists. split; [reflexivity|]. split; reflexivity. }
    destruct (existsTitel _ db).
    { intros _. eexists. split; [reflexivity|]. split; reflexivity. }
    destruct (existsIsbn _ db).
    { intros _. eexists. split; [reflexivity|]. split; reflexivity. }
    intros Hbad. exfalso. apply Hbad. reflexivity.
Qed.

(** The handler [findById]: 404 when the collection has no record for the
    id.  For a stored record, 304 without body exactly when [If-None-Match]
    is the quoted text of the stored version; otherwise the record with the
    header [ETag] holding that quoted text, and the body carries neither
    [_id] nor [__v] nor the timestamps, keeps every other field of the
    stored record, and has the five links under the base URI and the id. *)
Theorem rest_findById_conditional (req : Rest.Request) (db : Collection)
    (id : string) :
  Rest.paramsId req = Some id ->
  (BuchModel.findById id db = None ->
   Rest.findById req db = Rest.sendStatus Rest.NOT_FOUND Rest.emptyResponse)
  /\ (forall stored, BuchModel.findById id db = Some stored ->
      let etag := BuchService.quoted (Rest.showVersion (__v stored)) in
      (Rest.ifNoneMatch req = Some etag ->
       Rest.findById req db = Rest.sendStatus Rest.NOT_MODIFIED Rest.emptyResponse)
      /\ (Rest.ifNoneMatch req <> Some etag ->
          exists hal,
            Rest.findById req db
            = Rest.send (Rest.JsonBuch hal) (Rest.set "ETag" etag Rest.emptyResponse)
            /\ _id (Rest.halBuch hal) = None /\ __v (Rest.halBuch hal) = None
            /\ createdAt (Rest.halBuch hal) = None
            /\ updatedAt (Rest.halBuch hal) = None
            /\ Rest.sameContent stored (Rest.halBuch hal)
            /\ Rest._links hal
               = Some {| Rest.linkSelf := Some (Rest.baseUri req ++ "/" ++ id);
                         Rest.linkList := Some (Rest.baseUri req);
                         Rest.linkAdd := Some (Rest.baseUri req);
                         Rest.linkUpdate := Some (Rest.baseUri req ++ "/" ++ id);
                         Rest.linkRemove := Some (Rest.baseUri req ++ "/" ++ id)
                      |})).
Proof.
  intros Hid. split.
  - intros Hnone. unfold Rest.findById, BuchService.findById.
    rewrite Hid, Hnone. reflexivity.
  - intros stored Hs etag. unfold Rest.findById, BuchService.findById.
    rewrite Hid, Hs. simpl. fold etag. split.
    + intros ->. rewrite String.eqb_refl. reflexivity.
    + intros Hne.
      assert (Hcmp : match Rest.ifNoneMatch req with
                     | Some versionHeader => String.eqb versionHeader etag
                     | None => false
                     end = false).
      { destruct (Rest.ifNoneMatch req) as [h|]; [|reflexivity].
        apply String.eqb_neq. congruence. }
      rewrite Hcmp. eexists. split; [reflexivity|].
      unfold Rest.sameContent. repeat split.
Qed.

(** The handler [delete] answers 204 whether or not there was a record; on
    a collection with unique ids the service finds nothing under the id
    afterwards, and a repeated request gets the same answer and changes
    nothing. *)
Theorem rest_delete_response (req : Rest.Request) (db : Collection)
    (id : string) :
  Rest.paramsId req = Some id ->
  uniqueIds db ->
  fst (Rest.delete req db) = Rest.sendStatus Rest.NO_CONTENT Rest.emptyResponse
  /\ BuchService.findById id (snd (Rest.delete req db)) = None
  /\ Rest.delete req (snd (Rest.delete req db))
     = (Rest.sendStatus Rest.NO_CONTENT Rest.emptyResponse,
        snd (Rest.delete req db)).
Proof.
  intros Hid Huniq. destruct (delete_gone id db Huniq) as (Hnone & _ & _).
  unfold Rest.delete. rewrite Hid.
  destruct (BuchService.delete id db) as [deleted db'] eqn:Hdel.
  simpl in *. split; [reflexivity|]. split.
  - unfold BuchService.findById. rewrite Hnone. reflexivity.
  - unfold BuchService.delete, findByIdAndDelete. rewrite Hnone. reflexivity.
Qed.

Lemma contains_newRegExp (c : ascii) (pattern : string) :
  contains c pattern = true -> parseTerm c = None -> newRegExp pattern = None.
Proof.
  intros Hin Hc. induction pattern as [|d rest IH]; simpl in *; [discriminate|].
  apply orb_prop in Hin as [E | Hin].
  - apply Ascii.eqb_eq in E. subst d. rewrite Hc. reflexivity.
  - rewrite (IH Hin). destruct (parseTerm d); reflexivity.
Qed.

Lemma refused_newRegExp (pattern : string) :
  refused pattern = true -> newRegExp pattern = None.
Proof.
  unfold refused. intros Hr. apply orb_prop in Hr as [Hfirst | Hgroup].
  - destruct pattern as [|c rest]; [discriminate|].
    apply (contains_newRegExp c); [simpl; rewrite Ascii.eqb_refl; reflexivity|].
    apply orb_prop in Hfirst as [Hfirst | E];
      [apply orb_prop in Hfirst as [E | E]|];
      apply Ascii.eqb_eq in E; subst c; reflexivity.
  - apply andb_prop in Hgroup as [Hgroup _]. apply andb_prop in Hgroup as [Hgroup _].
    apply andb_prop in Hgroup as [Hopen _].
    apply (contains_newRegExp "("); [exact Hopen | reflexivity].
Qed.

(** The handler [find].  When the title of the query is no pattern (it is
    absent, no string, or has 10 characters or more) or a pattern of the
    modelled fragment, the handler answers, and it answers 404 exactly when
    the service finds no record; otherwise the body is an array with one
    entry for each record found, in the same order; an entry carries
    neither [_id] nor [__v] nor the timestamps, keeps every other field of
    a stored record, and links to itself under the base URI and the id of
    that record.  When the title is a pattern that the constructor of
    [RegExp] refuses, the handler answers 500. *)
Theorem rest_find_response `{Platform} (req : Rest.Request) (db : Collection) :
  (BuchService.titelCriterion (BuchService.q_titel (Rest.reqQuery req)) <> None ->
   exists res autos,
     Rest.find req db = Some res
     /\ BuchService.find (Some (Rest.reqQuery req)) db = BuchService.Found autos
     /\ (autos = [] <-> res = Rest.sendStatus Rest.NOT_FOUND Rest.emptyResponse)
     /\ (autos <> [] ->
         exists hals,
           res = Rest.send (Rest.JsonBuecher hals) Rest.emptyResponse
           /\ map (fun hal => titel (Rest.halBuch hal)) hals = map titel autos
           /\ forall hal, In hal hals ->
                _id (Rest.halBuch hal) = None /\ __v (Rest.halBuch hal) = None
                /\ createdAt (Rest.halBuch hal) = None
                /\ updatedAt (Rest.halBuch hal) = None
                /\ exists stored,
                     In stored db
                     /\ Rest.sameContent stored (Rest.halBuch hal)
                     /\ Rest._links hal
                        = Some {| Rest.linkSelf :=
                                    Some (Rest.baseUri req ++ "/"
                                            ++ BuchService.showOpt (_id stored));
                                  Rest.linkList := None; Rest.linkAdd := None;
                                  Rest.linkUpdate := None;
                                  Rest.linkRemove := None |}))
  /\ (BuchService.titelRefused (BuchService.q_titel (Rest.reqQuery req)) = true ->
      Rest.find req db
      = Some (Rest.sendStatus Rest.INTERNAL_ERROR Rest.emptyResponse)).
Proof.
  split.
  - intros Hfrag.
    assert (Hfound : exists autos,
               BuchService.find (Some (Rest.reqQuery req)) db
               = BuchService.Found autos).
    { unfold BuchService.find.
      destruct (BuchService.noEntries (Rest.reqQuery req)); [eexists; reflexivity|].
      destruct (BuchService.titelCriterion
                  (BuchService.q_titel (Rest.reqQuery req))) as [re|];
        [eexists; reflexivity | contradiction]. }
    destruct Hfound as [autos Hfind]. unfold Rest.find. rewrite Hfind.
    destruct autos as [|a rest].
    + eexists _, []. split; [reflexivity|]. split; [reflexivity|].
      split; [split; reflexivity|]. intros Hne. contradiction.
    + eexists _, (a :: rest). split; [reflexivity|]. split; [reflexivity|].
      split; [split; discriminate|].
      intros _. exists (map (Rest.selfLinked (Rest.baseUri req)) (a :: rest)).
      split; [reflexivity|]. split; [rewrite map_map; reflexivity|].
      intros hal Hin. apply in_map_iff in Hin as (r & <- & Hr).
      destruct (find_found_from_collection _ db _ Hfind r Hr)
        as (stored & Hst & ->).
      split; [reflexivity|]. split; [reflexivity|].
      split; [reflexivity|]. split; [reflexivity|].
      exists stored. split; [exact Hst|]. split; [|reflexivity].
      unfold Rest.sameContent. repeat split.
  - intros Href. unfold Rest.find, BuchService.find.
    assert (Hq : exists s, BuchService.q_titel (Rest.reqQuery req) = Some (QString s)
                           /\ Nat.ltb (String.length s) 10 = true
                           /\ refused s = true).
    { unfold BuchService.titelRefused in Href.
      destruct (BuchService.q_titel (Rest.reqQuery req)) as [[s| |]|];
        try discriminate.
      apply andb_prop in Href as [Hlen Hr]. exists s. repeat split; assumption. }
    destruct Hq as (s & Hs & Hlen & Hr).
    assert (Hentries : BuchService.noEntries (Rest.reqQuery req) = false)
      by (unfold BuchService.noEntries; rewrite Hs; reflexivity).
    rewrite Hentries. unfold BuchService.titelCriterion. rewrite Hs in *.
    rewrite Hlen, (refused_newRegExp s Hr). cbn [option_map].
    rewrite Href. reflexivity.
Qed.

End RestHandlers.

(* ================================================================= *)
(** ** Creating twice, and the other resolvers *)

Section CreateTwice.

Import JS BuchModel BuchService Invariants.

Lemma existsTitel_app (t : string) (db : Collection) (b : BuchData) :
  existsTitel t (db ++ [b])%list = existsTitel t db || String.eqb (titel b) t.
Proof.
  unfold existsTitel. rewrite existsb_app. simpl. rewrite orb_false_r. reflexivity.
Qed.

Lemma existsIsbn_app (i : string) (db : Collection) (b : BuchData) :
  existsIsbn i (db ++ [b])%list = existsIsbn i db || String.eqb (isbn b) i.
Proof.
  unfold existsIsbn. rewrite existsb_app. simpl. rewrite orb_false_r. reflexivity.
Qed.

(** After a [create] that succeeded, a second candidate that the validator
    accepts is refused with [TitelExists] when it has the title of the
    first, and with [IsbnExists] when it has a title of no stored record
    and the ISBN of the first; the collection stays as the first [create]
    left it. *)
Theorem create_twice_conflicts `{Platform} (mail mail' : MailEnv)
    (auto auto2 : BuchData) (db db' : Collection) (id : string)
    (log : list LogEntry) :
  create mail auto db = (inr id, db', log) ->
  validateBuch auto2 = None ->
  (titel auto2 = titel auto ->
   create mail' auto2 db' = (inl (TitelExists (titel auto) None), db', []))
  /\ (existsTitel (titel auto2) db' = false -> isbn auto2 = isbn auto ->
      create mail' auto2 db' = (inl (IsbnExists (isbn auto) None), db', [])).
Proof.
  unfold create at 1.
  destruct (validateCreate auto db) as [e|]; [discriminate|].
  simpl. intros [= <- <- <-] Hvalid. split.
  - intros Ht. unfold create, validateCreate. rewrite Hvalid, Ht.
    rewrite existsTitel_app. simpl. rewrite String.eqb_refl, orb_true_r.
    reflexivity.
  - intros Hnt Hi. unfold create, validateCreate. rewrite Hvalid, Hnt, Hi.
    rewrite existsIsbn_app. simpl. rewrite String.eqb_refl, orb_true_r.
    reflexivity.
Qed.

End CreateTwice.

Section OtherResolvers.

Import JS BuchModel Invariants GraphqlResolvers.

(** The resolver [findBuchById] returns nothing exactly when the
    collection has no record for the id; for a stored record the result
    has the id asked for as [id], the stored version as [version], and the
    record without its timestamps. *)
Theorem graphql_findBuchById_result (i : string) (db : Collection) :
  (findBuchById i db = None <-> BuchModel.findById i db = None)
  /\ (forall stored, BuchModel.findById i db = Some stored ->
      exists r, findBuchById i db = Some r
                /\ id r = Some i /\ version r = __v stored
                /\ auto r = BuchService.deleteTimestamps stored).
Proof.
  unfold findBuchById, BuchService.findById. split.
  - destruct (BuchModel.findById i db); split; intros E;
      try reflexivity; discriminate.
  - intros stored Hs. rewrite Hs. eexists. split; [reflexivity|].
    apply findById_some in Hs as [_ Hid]. repeat split. exact Hid.
Qed.

(** When the argument [titel] is left out, the resolver [findAutos]
    returns every stored record once, in ascending order of the titles,
    each with its [_id] as [id] and its [__v] as [version].  When the
    argument is [null], the query object has the property and the sorted
    branch of [find] is not taken: on a store that matches every record
    against empty criteria the records come back in the order of the
    collection. *)
Theorem graphql_findAutos_all `{Platform} (db : Collection) :
  (exists rs,
     findAutos TitelUndefined db = Some rs
     /\ Sorted titelLe (map auto rs)
     /\ Permutation (map auto rs) (map BuchService.deleteTimestamps db)
     /\ forall r, In r rs -> id r = _id (auto r) /\ version r = __v (auto r))
  /\ ((forall b, matchesCriteria [] b = true) ->
      findAutos TitelNull db
      = Some (map withIdAndVersion (map BuchService.deleteTimestamps db))).
Proof.
  split.
  - exists (map withIdAndVersion
              (map BuchService.deleteTimestamps (findAllSorted db))).
    split; [reflexivity|].
    assert (Hauto : forall l, map auto (map withIdAndVersion l) = l).
    { intros l. rewrite map_map. apply map_id. }
    rewrite Hauto. split; [|split].
    + apply Sorted_map_deleteTimestamps, findAllSorted_sorted.
    + apply Permutation_map, findAllSorted_perm.
    + intros r Hin. apply in_map_iff in Hin as (a & <- & _). split; reflexivity.
  - intros Hall. unfold findAutos, BuchService.find. simpl.
    unfold BuchModel.find.
    assert (Hfilter : forall q l,
               dq_titel q = None -> dq_schlagwoerter q = None -> dq_rest q = [] ->
               List.filter (matchesQuery q) l = l).
    { intros q l Ht Hs Hr. induction l as [|b l IH]; simpl; [reflexivity|].
      unfold matchesQuery at 1. rewrite Ht, Hs, Hr, Hall. simpl.
      rewrite IH. reflexivity. }
    rewrite Hfilter; reflexivity.
Qed.

End OtherResolvers.

(* ================================================================= *)
(** ** The handlers and resolvers on the test data *)

Lemma testdaten_unique :
  Invariants.uniqueIds Testdaten.testdaten
  /\ Invariants.uniqueTitel Testdaten.testdaten
  /\ Invariants.uniqueIsbn Testdaten.testdaten.
Proof.
  unfold Invariants.uniqueIds, Invariants.uniqueTitel, Invariants.uniqueIsbn,
    Invariants.ids.
  simpl. repeat split.
  - repeat constructor; simpl; intuition discriminate.
  - intros b [<- | [<- | []]]; discriminate.
  - repeat constructor; simpl; intuition discriminate.
  - repeat constructor; simpl; intuition discriminate.
Qed.

Lemma find_all_sorted_by_titel_witness :
  exists autos,
    BuchService.find (H := Testdaten.testPlatform) None Testdaten.testdaten
    = BuchService.Found autos
    /\ Sorted Invariants.titelLe autos
    /\ Permutation autos (map BuchService.deleteTimestamps Testdaten.testdaten).
Proof.
  apply (find_all_sorted_by_titel (H := Testdaten.testPlatform)
           None Testdaten.testdaten).
  left. reflexivity.
Defined.

Lemma create_keeps_titel_and_isbn_unique_witness :
  (Invariants.uniqueTitel Testdaten.testdaten
   /\ Invariants.uniqueIsbn Testdaten.testdaten)
  /\ Invariants.uniqueTitel
       (snd (fst (BuchService.create (H := Testdaten.testPlatform)
                    Testdaten.mailOk
                    (Testdaten.candidate "Gamma" "978-0201633610")
                    Testdaten.testdaten)))
  /\ Invariants.uniqueIsbn
       (snd (fst (BuchService.create (H := Testdaten.testPlatform)
                    Testdaten.mailOk
                    (Testdaten.candidate "Gamma" "978-0201633610")
                    Testdaten.testdaten))).
Proof.
  destruct testdaten_unique as (_ & Ht & Hi).
  split; [split; assumption|].
  exact (create_keeps_titel_and_isbn_unique (H := Testdaten.testPlatform)
           Testdaten.mailOk (Testdaten.candidate "Gamma" "978-0201633610")
           Testdaten.testdaten Ht Hi).
Defined.

Lemma failure_leaves_collection_witness :
  BuchService.create (H := Testdaten.testPlatform) Testdaten.mailOk
    (Testdaten.candidate "Alpha" "978-0007097326") Testdaten.testdaten
  = (inl (TitelExists "Alpha" None), Testdaten.testdaten, [])
  /\ BuchService.update (H := Testdaten.testPlatform) Testdaten.alphaNeu
       (Some "-1") Testdaten.testdaten
     = (inl (VersionOutdated Testdaten.alphaId (-1)), Testdaten.testdaten).
Proof.
  split.
  - apply (failure_leaves_collection (H := Testdaten.testPlatform)
             Testdaten.testdaten (Testdaten.candidate "Alpha" "978-0007097326")
             (TitelExists "Alpha" None)).
    reflexivity.
  - apply (failure_leaves_collection (H := Testdaten.testPlatform)
             Testdaten.testdaten Testdaten.alphaNeu
             (VersionOutdated Testdaten.alphaId (-1))).
    reflexivity.
Defined.

Lemma failure_kinds_witness :
  fst (BuchService.updateRacing (H := Testdaten.testPlatform) (fun c => c)
         (Testdaten.withId Testdaten.unknownId (Testdaten.candidate "Beta" "978-0007097326"))
         (Some "0") Testdaten.testdaten)
  = inl (TitelExists "Beta" (Some "00000000-0000-0000-0000-000000000002"))
  /\ exists b, In b Testdaten.testdaten /\ titel b = "Beta"
               /\ _id b <> Some Testdaten.unknownId
               /\ _id b = Some "00000000-0000-0000-0000-000000000002".
Proof.
  split; [reflexivity|].
  destruct (failure_kinds (H := Testdaten.testPlatform)
              (Testdaten.withId Testdaten.unknownId
                 (Testdaten.candidate "Beta" "978-0007097326"))
              Testdaten.testdaten
              (TitelExists "Beta" (Some "00000000-0000-0000-0000-000000000002")))
    as [_ Hupd].
  destruct (Hupd (fun c => c) (Some "0") eq_refl)
    as [E | [(msg & _ & E) | [(b & Hin & Ht & Hne & E) | [E | (i & v & _ & _ & E)]]]];
    try discriminate E.
  exists b. repeat split; try assumption. congruence.
Defined.

Lemma second_update_outdated_witness :
  BuchService.update (H := Testdaten.testPlatform) Testdaten.alphaNeuV0
    (Some "0") Testdaten.testdaten = (inr 1, Anfragen.nachAendern)
  /\ exists id,
       _id Testdaten.alphaNeuV0 = Some id
       /\ BuchService.update (H := Testdaten.testPlatform) Testdaten.alphaNeuV0
            (Some "0") Anfragen.nachAendern
          = (inl (VersionOutdated id 0), Anfragen.nachAendern).
Proof.
  split; [reflexivity|].
  apply (second_update_outdated (H := Testdaten.testPlatform)
           Testdaten.alphaNeuV0 Testdaten.alphaNeuV0 (Some "0") (Some "0")
           Testdaten.testdaten Anfragen.nachAendern 1 0);
    try reflexivity.
  intros b Hin Ht. vm_compute in Hin.
  destruct Hin as [<- | [<- | []]]; [reflexivity | discriminate Ht].
Defined.

Lemma update_keeps_ids_and_titel_unique_witness :
  (Invariants.uniqueIds Testdaten.testdaten
   /\ Invariants.uniqueTitel Testdaten.testdaten)
  /\ Invariants.uniqueIds Anfragen.nachAendern
  /\ Invariants.uniqueTitel Anfragen.nachAendern.
Proof.
  destruct testdaten_unique as (Hids & Ht & _).
  split; [split; assumption|].
  exact (update_keeps_ids_and_titel_unique (H := Testdaten.testPlatform)
           Testdaten.alphaNeuV0 (Some "0") Testdaten.testdaten Hids Ht).
Defined.

Lemma delete_then_absent_witness :
  Invariants.uniqueIds Testdaten.testdaten
  /\ BuchService.findById Testdaten.alphaId
       (snd (BuchService.delete Testdaten.alphaId Testdaten.testdaten)) = None
  /\ BuchService.delete Testdaten.alphaId
       (snd (BuchService.delete Testdaten.alphaId Testdaten.testdaten))
     = (false, snd (BuchService.delete Testdaten.alphaId Testdaten.testdaten)).
Proof.
  destruct testdaten_unique as (Hids & _ & _).
  split; [exact Hids|].
  destruct (delete_then_absent Testdaten.alphaId Testdaten.testdaten Hids)
    as (Hnone & _ & _ & Hagain).
  split; assumption.
Defined.

Lemma aendern_keeps_own_titel :
  forall b, In b Testdaten.testdaten ->
            titel b = titel (Rest.reqBody Anfragen.aendern) ->
            _id b = Some Testdaten.alphaId.
Proof.
  intros b [<- | [<- | []]] Ht; [reflexivity | discriminate Ht].
Qed.

Lemma etag_read_then_update_witness :
  Rest.headers (Rest.findById Anfragen.lesen Testdaten.testdaten)
  = [("ETag", BuchService.quoted "0")]
  /\ exists db',
       Rest.update (H := Testdaten.testPlatform) (H0 := Anfragen.testShared)
         Anfragen.aendern Testdaten.testdaten
       = (Rest.sendStatus Rest.NO_CONTENT
            (Rest.set "ETag" "1" Rest.emptyResponse), db')
       /\ option_map __v (BuchModel.findById Testdaten.alphaId db')
          = Some (Some 1).
Proof.
  exact (etag_read_then_update (H := Testdaten.testPlatform)
           (H0 := Anfragen.testShared) Anfragen.lesen Anfragen.aendern
           Testdaten.testdaten Testdaten.alphaId Testdaten.alpha 0
           eq_refl eq_refl eq_refl eq_refl eq_refl eq_refl eq_refl eq_refl
           aendern_keeps_own_titel).
Defined.

Lemma update_etag_not_accepted_back_witness :
  Rest.statusCode
    (fst (Rest.update (H := Testdaten.testPlatform) (H0 := Anfragen.testShared)
            Anfragen.aendern Testdaten.testdaten)) = Some Rest.NO_CONTENT
  /\ Rest.headers
       (fst (Rest.update (H := Testdaten.testPlatform) (H0 := Anfragen.testShared)
               Anfragen.aendern Testdaten.testdaten)) = [("ETag", "1")]
  /\ Rest.update (H := Testdaten.testPlatform) (H0 := Anfragen.testShared)
       Anfragen.nochmal Anfragen.nachAendern
     = (Rest.plainText Rest.PRECONDITION_FAILED "Ungueltige Versionsnummer: 1",
        Anfragen.nachAendern).
Proof.
  split; [reflexivity|]. split; [reflexivity|].
  destruct (update_etag_not_accepted_back (H := Testdaten.testPlatform)
              (H0 := Anfragen.testShared) Anfragen.aendern Anfragen.nochmal
              Testdaten.testdaten Anfragen.nachAendern Anfragen.nachAendern
              (fst (Rest.update (H := Testdaten.testPlatform)
                      (H0 := Anfragen.testShared)
                      Anfragen.aendern Testdaten.testdaten))
              eq_refl eq_refl) as (newVersion & Hhead & Hback).
  assert (HtoString : JS.toString newVersion = "1").
  { change (Rest.headers
              (fst (Rest.update (H := Testdaten.testPlatform)
                      (H0 := Anfragen.testShared)
                      Anfragen.aendern Testdaten.testdaten)))
      with [("ETag", "1")] in Hhead.
    injection Hhead as Hts. symmetry. exact Hts. }
  assert (Hone : newVersion = 1).
  { pose proof (parseInt_toString newVersion) as Hp.
    rewrite HtoString in Hp. vm_compute in Hp. congruence. }
  subst newVersion. apply Hback; [lia | reflexivity | reflexivity].
Defined.

Lemma rest_update_response_witness :
  (Rest.notJson (H := Anfragen.testShared) Anfragen.alsText = true
   /\ Rest.ended
        (fst (Rest.update (H := Testdaten.testPlatform) (H0 := Anfragen.testShared)
                Anfragen.alsText Testdaten.testdaten)) = false)
  /\ (Rest.notJson (H := Anfragen.testShared) Anfragen.aendern = false
      /\ Rest.ended
           (fst (Rest.update (H := Testdaten.testPlatform)
                   (H0 := Anfragen.testShared)
                   Anfragen.aendern Testdaten.testdaten)) = true)
  /\ (Rest.ifMatch Anfragen.lesen = None
      /\ Rest.update (H := Testdaten.testPlatform) (H0 := Anfragen.testShared)
           Anfragen.lesen Testdaten.testdaten
         = (Rest.plainText Rest.PRECONDITION_REQUIRED "Versionsnummer fehlt",
            Testdaten.testdaten)).
Proof.
  split; [|split].
  - split; [reflexivity|].
    apply (rest_update_response (H := Testdaten.testPlatform)
             (H0 := Anfragen.testShared) Anfragen.alsText Testdaten.testdaten).
    reflexivity.
  - split; [reflexivity|].
    apply (rest_update_response (H := Testdaten.testPlatform)
             (H0 := Anfragen.testShared) Anfragen.aendern Testdaten.testdaten).
    reflexivity.
  - split; [reflexivity|].
    apply (rest_update_response (H := Testdaten.testPlatform)
             (H0 := Anfragen.testShared) Anfragen.lesen Testdaten.testdaten);
      reflexivity.
Defined.

Lemma rest_create_response_witness :
  (BuchService.validateCreate (H := Testdaten.testPlatform)
     (Rest.reqBody Anfragen.neuGamma) Testdaten.testdaten = None
   /\ Rest.headers
        (fst (fst (Rest.create (H := Testdaten.testPlatform)
                     (H0 := Anfragen.testShared) Testdaten.mailOk
                     Anfragen.neuGamma Testdaten.testdaten)))
      = [("Location",
          "https://localhost:3000/api/autos/00000000-0000-0000-0000-000000000102")])
  /\ (BuchService.validateCreate (H := Testdaten.testPlatform)
        (Rest.reqBody Anfragen.neuAlpha) Testdaten.testdaten <> None
      /\ exists res,
           Rest.create (H := Testdaten.testPlatform) (H0 := Anfragen.testShared)
             Testdaten.mailOk Anfragen.neuAlpha Testdaten.testdaten
           = (res, Testdaten.testdaten, [])
           /\ Rest.statusCode res = Some Rest.BAD_REQUEST
           /\ Rest.ended res = true).
Proof.
  split.
  - split; [reflexivity|].
    destruct (rest_create_response (H := Testdaten.testPlatform)
                (H0 := Anfragen.testShared) Testdaten.mailOk Anfragen.neuGamma
                Testdaten.testdaten) as (_ & Hok & _).
    rewrite (Hok eq_refl eq_refl). reflexivity.
  - split; [discriminate|].
    apply (rest_create_response (H := Testdaten.testPlatform)
             (H0 := Anfragen.testShared) Testdaten.mailOk Anfragen.neuAlpha
             Testdaten.testdaten); [reflexivity | discriminate].
Defined.

Lemma rest_findById_conditional_witness :
  Rest.findById
    (Anfragen.anfrage (Some Testdaten.alphaId) (Some (BuchService.quoted "0"))
       None Testdaten.alpha) Testdaten.testdaten
  = Rest.sendStatus Rest.NOT_MODIFIED Rest.emptyResponse
  /\ Rest.findById
       (Anfragen.anfrage (Some Testdaten.unknownId) None None Testdaten.alpha)
       Testdaten.testdaten
     = Rest.sendStatus Rest.NOT_FOUND Rest.emptyResponse
  /\ exists hal,
       Rest.findById Anfragen.lesen Testdaten.testdaten
       = Rest.send (Rest.JsonBuch hal)
           (Rest.set "ETag" (BuchService.quoted "0") Rest.emptyResponse)
       /\ _id (Rest.halBuch hal) = None /\ titel (Rest.halBuch hal) = "Alpha".
Proof.
  split; [|split].
  - apply (rest_findById_conditional
             (Anfragen.anfrage (Some Testdaten.alphaId)
                (Some (BuchService.quoted "0")) None Testdaten.alpha)
             Testdaten.testdaten Testdaten.alphaId eq_refl)
      with (stored := Testdaten.alpha); reflexivity.
  - apply (rest_findById_conditional
             (Anfragen.anfrage (Some Testdaten.unknownId) None None Testdaten.alpha)
             Testdaten.testdaten Testdaten.unknownId eq_refl).
    reflexivity.
  - destruct (rest_findById_conditional Anfragen.lesen Testdaten.testdaten
                Testdaten.alphaId eq_refl) as [_ Hstored].
    destruct (Hstored Testdaten.alpha eq_refl) as [_ Hfresh].
    destruct (Hfresh ltac:(discriminate))
      as (hal & Hres & Hid & _ & _ & _ & (Ht & _) & _).
    exists hal. repeat split; assumption.
Defined.

Lemma rest_delete_response_witness :
  Invariants.uniqueIds Testdaten.testdaten
  /\ fst (Rest.delete Anfragen.lesen Testdaten.testdaten)
     = Rest.sendStatus Rest.NO_CONTENT Rest.emptyResponse
  /\ BuchService.findById Testdaten.alphaId
       (snd (Rest.delete Anfragen.lesen Testdaten.testdaten)) = None.
Proof.
  destruct testdaten_unique as (Hids & _ & _).
  split; [exact Hids|].
  destruct (rest_delete_response Anfragen.lesen Testdaten.testdaten
              Testdaten.alphaId eq_refl Hids) as (Hres & Hnone & _).
  split; assumption.
Defined.

Lemma rest_find_response_witness :
  (BuchService.titelCriterion (BuchService.q_titel (Rest.reqQuery Anfragen.lesen))
   <> None
   /\ exists res autos,
        Rest.find (H := Testdaten.testPlatform) Anfragen.lesen Testdaten.testdaten
        = Some res
        /\ BuchService.find (H := Testdaten.testPlatform)
             (Some (Rest.reqQuery Anfragen.lesen)) Testdaten.testdaten
           = BuchService.Found autos
        /\ (autos = [] <->
            res = Rest.sendStatus Rest.NOT_FOUND Rest.emptyResponse))
  /\ (BuchService.titelCriterion
        (BuchService.q_titel (Rest.reqQuery (Anfragen.suche "Dr."))) <> None
      /\ exists res autos,
           Rest.find (H := Testdaten.testPlatform) (Anfragen.suche "Dr.") []
           = Some res
           /\ BuchService.find (H := Testdaten.testPlatform)
                (Some (Rest.reqQuery (Anfragen.suche "Dr."))) []
              = BuchService.Found autos
           /\ (autos = [] <->
               res = Rest.sendStatus Rest.NOT_FOUND Rest.emptyResponse))
  /\ (BuchService.titelRefused
        (BuchService.q_titel (Rest.reqQuery (Anfragen.suche "("))) = true
      /\ Rest.find (H := Testdaten.testPlatform) (Anfragen.suche "(")
           Testdaten.testdaten
         = Some (Rest.sendStatus Rest.INTERNAL_ERROR Rest.emptyResponse)).
Proof.
  split; [|split].
  - split; [discriminate|].
    destruct (rest_find_response (H := Testdaten.testPlatform) Anfragen.lesen
                Testdaten.testdaten) as [Hfrag _].
    destruct (Hfrag ltac:(discriminate)) as (res & autos & Hres & Hfind & Hiff & _).
    exists res, autos. repeat split; try assumption; apply Hiff.
  - split; [discriminate|].
    destruct (rest_find_response (H := Testdaten.testPlatform)
                (Anfragen.suche "Dr.") []) as [Hfrag _].
    destruct (Hfrag ltac:(discriminate)) as (res & autos & Hres & Hfind & Hiff & _).
    exists res, autos. repeat split; try assumption; apply Hiff.
  - split; [reflexivity|].
    apply (rest_find_response (H := Testdaten.testPlatform) (Anfragen.suche "(")
             Testdaten.testdaten).
    reflexivity.
Defined.

Lemma create_twice_conflicts_witness :
  exists db' id log,
    BuchService.create (H := Testdaten.testPlatform) Testdaten.mailOk
      (Testdaten.candidate "Gamma" "978-0201633610") Testdaten.testdaten
    = (inr id, db', log)
    /\ BuchService.create (H := Testdaten.testPlatform) Testdaten.mailDown
         (Testdaten.candidate "Gamma" "978-0007097326") db'
       = (inl (TitelExists "Gamma" None), db', [])
    /\ BuchService.create (H := Testdaten.testPlatform) Testdaten.mailDown
         (Testdaten.candidate "Delta" "978-0201633610") db'
       = (inl (IsbnExists "978-0201633610" None), db', []).
Proof.
  eexists _, _, _. split; [reflexivity|]. split.
  - apply (create_twice_conflicts (H := Testdaten.testPlatform)
             Testdaten.mailOk Testdaten.mailDown
             (Testdaten.candidate "Gamma" "978-0201633610")
             (Testdaten.candidate "Gamma" "978-0007097326")
             Testdaten.testdaten _ _ _ eq_refl eq_refl).
    reflexivity.
  - apply (create_twice_conflicts (H := Testdaten.testPlatform)
             Testdaten.mailOk Testdaten.mailDown
             (Testdaten.candidate "Gamma" "978-0201633610")
             (Testdaten.candidate "Delta" "978-0201633610")
             Testdaten.testdaten _ _ _ eq_refl eq_refl);
      reflexivity.
Defined.

Lemma graphql_findBuchById_result_witness :
  BuchModel.findById Testdaten.alphaId Testdaten.testdaten = Some Testdaten.alpha
  /\ exists r,
       GraphqlResolvers.findBuchById Testdaten.alphaId Testdaten.testdaten = Some r
       /\ GraphqlResolvers.id r = Some Testdaten.alphaId
       /\ GraphqlResolvers.version r = Some 0.
Proof.
  split; [reflexivity|].
  destruct (graphql_findBuchById_result Testdaten.alphaId Testdaten.testdaten)
    as [_ Hstored].
  destruct (Hstored Testdaten.alpha eq_refl) as (r & Hr & Hid & Hv & _).
  exists r. repeat split; assumption.
Defined.

Lemma graphql_findAutos_all_witness :
  (forall b, matchesCriteria (Platform := Testdaten.testPlatform) [] b = true)
  /\ GraphqlResolvers.findAutos (H := Testdaten.testPlatform)
       GraphqlResolvers.TitelNull [Testdaten.beta; Testdaten.alpha]
     = Some (map GraphqlResolvers.withIdAndVersion
               (map BuchService.deleteTimestamps [Testdaten.beta; Testdaten.alpha])).
Proof.
  split; [intros b; reflexivity|].
  apply (graphql_findAutos_all (H := Testdaten.testPlatform)
           [Testdaten.beta; Testdaten.alpha]).
  intros b. reflexivity.
Defined.
